(** * factory.alchemy: the SQLAlchemy persistence engine of factory_boy

    A shallow embedding of [factory/alchemy.py]: the option checker of
    [SQLAlchemyOptions], the helpers [attr_dict], [find_existing] and
    [update_existing], and the dispatcher [SQLAlchemyModelFactory._create].

    Model conventions.
    - Python values are drawn from the universe [pyval] (None, bool, int,
      str, the float NaN, any other object known by identity and by its
      truth value); what a class holds under a name is a [class_attr].
    - Model instances live in a heap of [__dict__]s addressed by reference,
      so that identity ("that exact row") and in-place mutation by [setattr]
      are visible.
    - The session, the schema and the model constructor are collaborators:
      they are arbitrary, possibly raising, functions on the store; every
      call made to them is appended to a log. *)

From Stdlib Require Import ZArith List Ascii String Bool.
From stdpp Require Import base option gmap strings list fin_maps pretty.

Local Open Scope string_scope.

(** ** Python values *)

Module Py.

Inductive pyval : Type :=
| VNone
| VBool (b : bool)
| VInt (z : Z)
| VStr (s : string)
| VNaN                       (* [float('nan')] *)
| VObj (id : N) (truth : bool).
    (* any other object, known by its identity and by what [bool] gives for it *)

#[global] Instance pyval_eq_dec : EqDecision pyval.
Proof. solve_decision. Defined.

(** [bool(v)]: None, False, 0 and the empty string are falsy, NaN is
    truthy, another object says for itself. *)
Definition truthy (v : pyval) : bool :=
  match v with
  | VNone => false
  | VBool b => b
  | VInt z => negb (z =? 0)%Z
  | VStr s => negb (String.eqb s "")
  | VNaN => true
  | VObj _ truth => truth
  end.

Definition int_of_bool (b : bool) : Z := if b then 1%Z else 0%Z.

(** [a == b]; bool is a subclass of int, so [True == 1]; NaN is equal to
    nothing, itself included; other objects are equal when they are the
    same object. *)
Definition py_eq (a b : pyval) : bool :=
  match a, b with
  | VNone, VNone => true
  | VBool x, VBool y => Bool.eqb x y
  | VBool x, VInt y => (int_of_bool x =? y)%Z
  | VInt x, VBool y => (x =? int_of_bool y)%Z
  | VInt x, VInt y => (x =? y)%Z
  | VStr x, VStr y => String.eqb x y
  | VObj i _, VObj j _ => (i =? j)%N
  | _, _ => false
  end.

(** [a != b] *)
Definition py_ne (a b : pyval) : bool := negb (py_eq a b).

(** [x in xs] for a list or a tuple: some element is equal to [x]. *)
Definition py_in (x : pyval) (xs : list pyval) : bool :=
  existsb (fun y => py_eq x y) xs.

(** [x not in xs] *)
Definition py_not_in (x : pyval) (xs : list pyval) : bool := negb (py_in x xs).

(** *** [repr]

    Strings are sequences of code points below 256. [repr] of a string
    picks the double quote when the text holds a single quote and no double
    quote, escapes the backslash, the chosen quote, tab, newline and
    carriage return, and writes the unprintable code points as [\xNN]. *)

Definition squote : ascii := ascii_of_nat 39.
Definition dquote : ascii := ascii_of_nat 34.
Definition backslash : ascii := ascii_of_nat 92.

Fixpoint has_char (c : ascii) (s : string) : bool :=
  match s with
  | EmptyString => false
  | String d r => Ascii.eqb c d || has_char c r
  end.

Definition repr_quote (s : string) : ascii :=
  if has_char squote s && negb (has_char dquote s) then dquote else squote.

Definition hex_digit (n : nat) : ascii :=
  if (n <? 10)%nat then ascii_of_nat (48 + n) else ascii_of_nat (87 + n).

Definition hex_escape (n : nat) : string :=
  String backslash
    (String "x" (String (hex_digit (n / 16)) (String (hex_digit (n mod 16)) EmptyString))).

(** Code points that [str.isprintable] rejects: the C0 and C1 controls,
    DEL, the no-break space and the soft hyphen. *)
Definition unprintable (n : nat) : bool :=
  (n <? 32)%nat || ((127 <=? n)%nat && (n <=? 160)%nat) || (n =? 173)%nat.

Definition repr_char (q c : ascii) : string :=
  let n := nat_of_ascii c in
  if Ascii.eqb c q || Ascii.eqb c backslash then String backslash (String c EmptyString)
  else if (n =? 9)%nat then String backslash "t"
  else if (n =? 10)%nat then String backslash "n"
  else if (n =? 13)%nat then String backslash "r"
  else if unprintable n then hex_escape n
  else String c EmptyString.

Fixpoint repr_body (q : ascii) (s : string) : string :=
  match s with
  | EmptyString => EmptyString
  | String c r => repr_char q c ++ repr_body q r
  end.

Definition repr_str (s : string) : string :=
  let q := repr_quote s in
  String q (repr_body q s ++ String q EmptyString).

(** [repr(v)]. For an object known only by its identity the text is up
    to the object's class; the model fixes one. *)
Definition py_repr (v : pyval) : string :=
  match v with
  | VNone => "None"
  | VBool true => "True"
  | VBool false => "False"
  | VInt z => pretty z
  | VStr s => repr_str s
  | VNaN => "nan"
  | VObj i _ => "<object at " ++ pretty i ++ ">"
  end.

Fixpoint join (sep : string) (l : list string) : string :=
  match l with
  | [] => ""
  | [x] => x
  | x :: r => x ++ sep ++ join sep r
  end.

(** [repr] of a list, which is also what [%s] prints for it. *)
Definition py_repr_list (l : list pyval) : string :=
  "[" ++ join ", " (map py_repr l) ++ "]".

(** *** Exceptions and results *)

Inductive exn : Type :=
| RuntimeError (msg : string)
| TypeError (msg : string)
| Raised (what : string).    (* anything a collaborator raises *)

Inductive result (A : Type) : Type :=
| Ok (a : A)
| Raise (e : exn).

Arguments Ok {A} a.
Arguments Raise {A} e.

End Py.

Export Py.

(** ** The option checker *)

Definition SESSION_PERSISTENCE_COMMIT : pyval := VStr "commit".
Definition SESSION_PERSISTENCE_FLUSH : pyval := VStr "flush".
Definition SESSION_PERSISTENCE_MERGE : pyval := VStr "merge".
Definition SESSION_PERSISTENCE_CHECK_AND_MERGE : pyval := VStr "check".
Definition SESSION_PERSISTENCE_GET_OR_ADD : pyval := VStr "get".
Definition SESSION_PERSISTENCE_ADD : pyval := VStr "add".

Definition VALID_SESSION_PERSISTENCE_TYPES : list pyval :=
  [ VNone;
    SESSION_PERSISTENCE_COMMIT;
    SESSION_PERSISTENCE_FLUSH;
    SESSION_PERSISTENCE_MERGE;
    SESSION_PERSISTENCE_CHECK_AND_MERGE;
    SESSION_PERSISTENCE_GET_OR_ADD;
    SESSION_PERSISTENCE_ADD ].

(** The message of the [TypeError]: the text
    [%s.sqlalchemy_session_persistence must be one of %s, got %r]
    filled with [meta], the list of legal values and the value. [meta] is
    the text [str] gives for the options holder of the offending class. *)
Definition persistence_error_message (meta : string) (value : pyval) : string :=
  meta ++ ".sqlalchemy_session_persistence must be one of "
       ++ py_repr_list VALID_SESSION_PERSISTENCE_TYPES
       ++ ", got " ++ py_repr value.

(** [SQLAlchemyOptions._check_sqlalchemy_session_persistence] *)
Definition _check_sqlalchemy_session_persistence (meta : string) (value : pyval)
  : result unit :=
  if py_not_in value VALID_SESSION_PERSISTENCE_TYPES
  then Raise (TypeError (persistence_error_message meta value))
  else Ok tt.


(** ** Model classes and the schema *)

Inductive ConstraintKind : Type :=
| UniqueConstraint
| PrimaryKeyConstraint
| ForeignKeyConstraint
| CheckConstraint.

Record Column : Type := { col_key : string }.

Record Constraint : Type := {
  c_kind : ConstraintKind;
  c_columns : list Column
}.

(** [isinstance(c, sqlalchemy.UniqueConstraint)] *)
Definition is_unique (c : Constraint) : bool :=
  match c_kind c with
  | UniqueConstraint => true
  | _ => false
  end.

(** What a class holds under a name: the instrumented attribute of a
    mapped column, a raw [Column] (a SQL clause), or a plain value. *)
Inductive class_attr : Type :=
| CMapped (cls key : string)
| CColumn (name : string)
| CValue (v : pyval).

(** [bool(a)] for a class attribute. An instrumented attribute is truthy;
    a SQL clause has no truth value and raises. *)
Definition bool_cls (a : class_attr) : result bool :=
  match a with
  | CMapped _ _ => Ok true
  | CColumn _ => Raise (TypeError "Boolean value of this clause is not defined")
  | CValue v => Ok (truthy v)
  end.

(** A mapped class: its name, the constraints of its table as the schema
    declares them, the same constraints in the order in which iterating
    over the set [__table__.constraints] yields them, its class attributes,
    and its constructor, which yields the [__dict__] of the new instance or
    raises. The code reads the set; nothing ties the order of its iteration
    to the order of the declarations. *)
Record ModelClass : Type := {
  mc_name : string;
  mc_declared : list Constraint;
  mc_constraints : list Constraint;
  mc_attrs : gmap string class_attr;
  mc_init : list pyval → list (string * pyval) → result (gmap string pyval)
}.

(** [getattr(model_cls, k, None)] *)
Definition getattr_cls (model_cls : ModelClass) (k : string) : class_attr :=
  default (CValue VNone) (mc_attrs model_cls !! k).

(** ** Instances *)

Abbreviation addr := nat (only parsing).
Abbreviation pydict := (gmap string pyval) (only parsing).
Abbreviation pyheap := (gmap nat (gmap string pyval)) (only parsing).

(** [instance.__dict__] *)
Definition instance_dict (h : pyheap) (o : addr) : pydict :=
  default ∅ (h !! o).

(** [getattr(instance, k, None)] on a mapped instance: the value held in
    its [__dict__], None when there is none (an attribute that was never set
    reads as None, and a name the instance does not have gives the default). *)
Definition getattr (h : pyheap) (o : addr) (k : string) : pyval :=
  default VNone (instance_dict h o !! k).

(** [setattr(instance, k, v)] *)
Definition setattr (h : pyheap) (o : addr) (k : string) (v : pyval) : pyheap :=
  alter (insert k v) o h.

(** [k.startswith('_sa')] *)
Definition is_internal (k : string) : bool := String.prefix "_sa" k.

(** [attr_dict]: a new dict with the items of [instance.__dict__] whose key
    does not start with [_sa]. *)
Definition attr_dict (h : pyheap) (instance : addr) : pydict :=
  filter (λ kv, is_internal kv.1 = false) (instance_dict h instance).

(** ** Calls, the store and the log *)

Inductive event : Type :=
| EvConstruct (cls : string) (args : list pyval) (kwargs : list (string * pyval))
| EvQuery (cls : string) (col : class_attr) (v : pyval)
| EvMerge (o : addr)
| EvFlush
| EvCommit
| EvAdd (o : addr).

Definition is_session_event (e : event) : bool :=
  match e with
  | EvConstruct _ _ _ => false
  | _ => true
  end.

(** What the collaborators can read and write: the instances and the
    session's own state, of some type [D]. *)
Record store (D : Type) : Type := {
  heap : gmap nat (gmap string pyval);
  db : D
}.

Arguments heap {D} _.
Arguments db {D} _.

Record world (D : Type) : Type := {
  st : store D;
  log : list event
}.

Arguments st {D} _.
Arguments log {D} _.

(** The session: query-by-equality giving the first row or nothing, merge,
    flush, commit and add. Each may change the store and may raise. *)
Record Session (D : Type) : Type := {
  query_first : string → class_attr → pyval → store D → result (option addr) * store D;
  merge_op : addr → store D → result addr * store D;
  flush_op : store D → result unit * store D;
  commit_op : store D → result unit * store D;
  add_op : addr → store D → result unit * store D
}.

Arguments query_first {D} _ _ _ _ _.
Arguments merge_op {D} _ _ _.
Arguments flush_op {D} _ _.
Arguments commit_op {D} _ _.
Arguments add_op {D} _ _ _.

(** The resolved options of a factory class ([cls._meta]). *)
Record Options (D : Type) : Type := {
  sqlalchemy_session : option (Session D);
  sqlalchemy_session_persistence : pyval;
  force_flush : pyval;
  sqlalchemy_update_existing : pyval
}.

Arguments sqlalchemy_session {D} _.
Arguments sqlalchemy_session_persistence {D} _.
Arguments force_flush {D} _.
Arguments sqlalchemy_update_existing {D} _.

(** *** The monad of the engine: state, log and exceptions *)

Definition M (D A : Type) : Type := world D → result A * world D.

Definition ret {D A} (a : A) : M D A := λ w, (Ok a, w).

Definition raise {D A} (e : exn) : M D A := λ w, (Raise e, w).

Definition bind {D A B} (m : M D A) (k : A → M D B) : M D B :=
  λ w, match m w with
       | (Ok a, w') => k a w'
       | (Raise e, w') => (Raise e, w')
       end.

Notation "'let*' x ':=' m 'in' k" := (bind m (λ x, k))
  (at level 10, x name, m at level 100, k at level 200).

Definition record_event {D} (ev : event) (w : world D) : world D :=
  {| st := st w; log := log w ++ [ev] |}.

Definition set_heap {D} (h : pyheap) (w : world D) : world D :=
  {| st := {| heap := h; db := db (st w) |}; log := log w |}.

(** A call into a collaborator: logged, then run on the store. *)
Definition call {D A} (ev : event) (f : store D → result A * store D) : M D A :=
  λ w, let '(r, s') := f (st w) in (r, {| st := s'; log := log w ++ [ev] |}).

Section Engine.

Context {D : Type}.

(** [session.query(model_cls).filter(matching_col == attr).first()] *)
Definition session_query (session : Session D) (model_cls : ModelClass)
    (matching_col : class_attr) (attr : pyval) : M D (option addr) :=
  call (EvQuery (mc_name model_cls) matching_col attr)
       (query_first session (mc_name model_cls) matching_col attr).

Definition session_merge (session : Session D) (o : addr) : M D addr :=
  call (EvMerge o) (merge_op session o).

Definition session_flush (session : Session D) : M D unit :=
  call EvFlush (flush_op session).

Definition session_commit (session : Session D) : M D unit :=
  call EvCommit (commit_op session).

Definition session_add (session : Session D) (o : addr) : M D unit :=
  call (EvAdd o) (add_op session o).

(** The call of [model_class] on [args] and [kwargs]: the constructor
    runs; when it returns, the new instance gets a reference no live
    instance has. *)
Definition construct (model_class : ModelClass) (args : list pyval)
    (kwargs : list (string * pyval)) : M D addr :=
  λ w,
    let w1 := record_event (EvConstruct (mc_name model_class) args kwargs) w in
    match mc_init model_class args kwargs with
    | Raise e => (Raise e, w1)
    | Ok d =>
        let o := fresh (dom (heap (st w))) in
        (Ok o, set_heap (<[o := d]> (heap (st w))) w1)
    end.

(** [find_existing], the loop over the columns of one constraint. A hit
    leaves the whole function, and so does a truth test that raises. *)
Fixpoint find_existing_columns (session : Session D) (obj : addr)
    (model_cls : ModelClass) (cols : list Column) : M D (option addr) :=
  match cols with
  | [] => ret None
  | col :: rest =>
      λ w,
        let attr := getattr (heap (st w)) obj (col_key col) in
        if truthy attr then
          let matching_col := getattr_cls model_cls (col_key col) in
          match bool_cls matching_col with
          | Raise e => raise e w
          | Ok true =>
              (let* existing := session_query session model_cls matching_col attr in
               match existing with
               | Some e => ret (Some e)
               | None => find_existing_columns session obj model_cls rest
               end) w
          | Ok false => find_existing_columns session obj model_cls rest w
          end
        else find_existing_columns session obj model_cls rest w
  end.

(** [find_existing], the loop over the constraints; falling off its end
    returns None. *)
Fixpoint find_existing_constraints (session : Session D) (obj : addr)
    (model_cls : ModelClass) (constraints : list Constraint) : M D (option addr) :=
  match constraints with
  | [] => ret None
  | const :: rest =>
      let* hit := find_existing_columns session obj model_cls (c_columns const) in
      match hit with
      | Some e => ret (Some e)
      | None => find_existing_constraints session obj model_cls rest
      end
  end.

(** [SQLAlchemyModelFactory.find_existing] *)
Definition find_existing (session : Session D) (obj : addr)
    (model_cls : ModelClass) : M D (option addr) :=
  let constraints := List.filter is_unique (mc_constraints model_cls) in
  find_existing_constraints session obj model_cls constraints.

(** One turn of the loop of [update_existing], on the item [(k, v)]. *)
Definition update_existing_step (obj existing : addr) (k : string) (v : pyval)
    (h : pyheap) : pyheap :=
  let obj_attr := getattr h obj k in
  if truthy obj_attr && py_ne obj_attr v
  then setattr h existing k obj_attr
  else h.

(** The loop of [update_existing] over the items [items], first to last. *)
Definition update_existing_loop (obj existing : addr)
    (items : list (string * pyval)) (h : pyheap) : pyheap :=
  fold_left (λ acc kv, update_existing_step obj existing kv.1 kv.2 acc) items h.

(** [SQLAlchemyModelFactory.update_existing]. The items are those of the
    dict [attr_dict] built before the loop starts, here in the order
    [map_to_list] gives them; [update_existing_any_order] shows that every
    other order of the same items ends in the same heap. *)
Definition update_existing (session : Session D) (obj existing : addr) : M D addr :=
  λ w,
    let h := heap (st w) in
    (Ok existing,
     set_heap (update_existing_loop obj existing
                 (map_to_list (attr_dict h existing)) h) w).

(** [SQLAlchemyModelFactory._create] *)
Definition _create (meta : Options D) (model_class : ModelClass)
    (args : list pyval) (kwargs : list (string * pyval)) : M D addr :=
  let session := sqlalchemy_session meta in
  let session_persistence :=
    if truthy (force_flush meta) then SESSION_PERSISTENCE_FLUSH
    else sqlalchemy_session_persistence meta in
  let* obj := construct model_class args kwargs in
  match session with
  | None => raise (RuntimeError "No session provided.")
  | Some session =>
      if py_eq session_persistence SESSION_PERSISTENCE_MERGE then
        let* obj := session_merge session obj in
        let* _ := session_commit session in
        ret obj
      else if py_in session_persistence
                [VStr "check"; SESSION_PERSISTENCE_CHECK_AND_MERGE] then
        let* existing := find_existing session obj model_class in
        match existing with
        | Some existing =>
            if truthy (sqlalchemy_update_existing meta) then
              let* existing := update_existing session obj existing in
              let* existing := session_merge session existing in
              let* _ := session_flush session in
              ret existing
            else ret existing
        | None =>
            let* obj := session_merge session obj in
            let* _ := session_flush session in
            ret obj
        end
      else if py_eq session_persistence SESSION_PERSISTENCE_GET_OR_ADD then
        let* existing := find_existing session obj model_class in
        match existing with
        | Some existing =>
            let* _ := session_merge session existing in
            ret existing
        | None =>
            let* _ := session_add session obj in
            let* _ := session_commit session in
            ret obj
        end
      else if py_eq session_persistence SESSION_PERSISTENCE_FLUSH then
        let* _ := session_flush session in
        ret obj
      else if py_eq session_persistence SESSION_PERSISTENCE_COMMIT then
        let* _ := session_commit session in
        ret obj
      else if py_eq session_persistence SESSION_PERSISTENCE_ADD then
        let* _ := session_add session obj in
        ret obj
      else ret obj
  end.

(** *** The same operations as the specification words them *)

(** The columns of the unique constraints, constraint after constraint. *)
Definition unique_columns (model_cls : ModelClass) : list Column :=
  flat_map c_columns (List.filter is_unique (mc_constraints model_cls)).








(** A session whose queries neither raise nor change the store. *)
Definition read_only (session : Session D) : Prop :=
  ∀ cls col v s, ∃ r, query_first session cls col v s = (Ok r, s).




(** Section 4.4, the field merge, attribute by attribute: what the row
    [existing] holds at [k] afterwards, given the two [__dict__]s before. *)
Definition merged_field (d_obj d_existing : pydict) (k : string) : option pyval :=
  match d_existing !! k with
  | None => None
  | Some v =>
      let new := default VNone (d_obj !! k) in
      if negb (is_internal k) && truthy new && py_ne new v then Some new else Some v
  end.

(** [_create] with the check-and-merge branch chosen by one comparison
    with ['check'] instead of the membership test. *)
Definition _create_single_test (meta : Options D) (model_class : ModelClass)
    (args : list pyval) (kwargs : list (string * pyval)) : M D addr :=
  let session := sqlalchemy_session meta in
  let session_persistence :=
    if truthy (force_flush meta) then SESSION_PERSISTENCE_FLUSH
    else sqlalchemy_session_persistence meta in
  let* obj := construct model_class args kwargs in
  match session with
  | None => raise (RuntimeError "No session provided.")
  | Some session =>
      if py_eq session_persistence SESSION_PERSISTENCE_MERGE then
        let* obj := session_merge session obj in
        let* _ := session_commit session in
        ret obj
      else if py_eq session_persistence (VStr "check") then
        let* existing := find_existing session obj model_class in
        match existing with
        | Some existing =>
            if truthy (sqlalchemy_update_existing meta) then
              let* existing := update_existing session obj existing in
              let* existing := session_merge session existing in
              let* _ := session_flush session in
              ret existing
            else ret existing
        | None =>
            let* obj := session_merge session obj in
            let* _ := session_flush session in
            ret obj
        end
      else if py_eq session_persistence SESSION_PERSISTENCE_GET_OR_ADD then
        let* existing := find_existing session obj model_class in
        match existing with
        | Some existing =>
            let* _ := session_merge session existing in
            ret existing
        | None =>
            let* _ := session_add session obj in
            let* _ := session_commit session in
            ret obj
        end
      else if py_eq session_persistence SESSION_PERSISTENCE_FLUSH then
        let* _ := session_flush session in
        ret obj
      else if py_eq session_persistence SESSION_PERSISTENCE_COMMIT then
        let* _ := session_commit session in
        ret obj
      else if py_eq session_persistence SESSION_PERSISTENCE_ADD then
        let* _ := session_add session obj in
        ret obj
      else ret obj
  end.

(** The options [meta] with another mode and another flush-forcing flag. *)
Definition with_persistence (mode force : pyval) (meta : Options D) : Options D :=
  {| sqlalchemy_session := sqlalchemy_session meta;
     sqlalchemy_session_persistence := mode;
     force_flush := force;
     sqlalchemy_update_existing := sqlalchemy_update_existing meta |}.

(** The world right after the constructor returned the [__dict__] [d]
    from the world [w], and the reference of the new instance. *)
Definition new_ref (w : world D) : addr := fresh (dom (heap (st w))).

Definition constructed (model_class : ModelClass) (args : list pyval)
    (kwargs : list (string * pyval)) (d : pydict) (w : world D) : world D :=
  set_heap (<[new_ref w := d]> (heap (st w)))
           (record_event (EvConstruct (mc_name model_class) args kwargs) w).

(** What a caller gets when the last call made gave [r] and the function
    then returns [b]. *)
Definition returning {A B} (r : result A) (b : B) : result B :=
  match r with
  | Ok _ => Ok b
  | Raise e => Raise e
  end.

Definition is_query (e : event) : bool :=
  match e with
  | EvQuery _ _ _ => true
  | _ => false
  end.

End Engine.

(** ** A session held in memory, and a model to run the engine on *)

Module Mem.

(** The rows the session tracks, oldest first. *)
Definition rows_with (k : string) (v : pyval) (s : store (list addr)) : list addr :=
  List.filter (λ r, py_eq (getattr (heap s) r k) v) (db s).

Definition mem_query (cls : string) (col : class_attr) (v : pyval)
    (s : store (list addr))
  : result (option addr) * store (list addr) :=
  match col with
  | CMapped _ k => (Ok (head (rows_with k v s)), s)
  | _ => (Ok None, s)
  end.

Definition track (o : addr) (s : store (list addr)) : store (list addr) :=
  if existsb (Nat.eqb o) (db s) then s
  else {| heap := heap s; db := (db s ++ [o])%list |}.

Definition session : Session (list addr) := {|
  query_first := mem_query;
  merge_op := λ o s, (Ok o, track o s);
  flush_op := λ s, (Ok tt, s);
  commit_op := λ s, (Ok tt, s);
  add_op := λ o s, (Ok tt, track o s)
|}.

(** A session whose merge copies the instance it is given onto a new
    tracked instance and hands that one back. *)
Definition merge_copy (o : addr) (s : store (list addr))
  : result addr * store (list addr) :=
  let o' := fresh (dom (heap s)) in
  (Ok o', {| heap := <[o' := instance_dict (heap s) o]> (heap s);
             db := (db s ++ [o'])%list |}).

Definition copying_session : Session (list addr) := {|
  query_first := mem_query;
  merge_op := merge_copy;
  flush_op := λ s, (Ok tt, s);
  commit_op := λ s, (Ok tt, s);
  add_op := λ o s, (Ok tt, track o s)
|}.

(** [Person(name, email)] with a unique constraint on [email]. *)
Definition person_init (args : list pyval) (kwargs : list (string * pyval))
  : result (gmap string pyval) :=
  match args with
  | [] => Ok (<["_sa_instance_state" := VObj 1 true]> (list_to_map kwargs))
  | _ => Raise (TypeError "__init__() takes 1 positional argument")
  end.

Definition Person : ModelClass := {|
  mc_name := "Person";
  mc_declared :=
    [ {| c_kind := PrimaryKeyConstraint; c_columns := [ {| col_key := "id" |} ] |};
      {| c_kind := UniqueConstraint; c_columns := [ {| col_key := "email" |} ] |} ];
  mc_constraints :=
    [ {| c_kind := PrimaryKeyConstraint; c_columns := [ {| col_key := "id" |} ] |};
      {| c_kind := UniqueConstraint; c_columns := [ {| col_key := "email" |} ] |} ];
  mc_attrs :=
    <["id" := CMapped "Person" "id"]>
      (<["name" := CMapped "Person" "name"]>
         (<["email" := CMapped "Person" "email"]> ∅));
  mc_init := person_init
|}.

Definition options (session : option (Session (list addr))) (mode : pyval)
    (force update : bool) : Options (list addr) := {|
  sqlalchemy_session := session;
  sqlalchemy_session_persistence := mode;
  force_flush := VBool force;
  sqlalchemy_update_existing := VBool update
|}.

Definition empty_world : world (list addr) :=
  {| st := {| heap := ∅; db := [] |}; log := [] |}.

Definition alice : list (string * pyval) :=
  [ ("name", VStr "Alice"); ("email", VStr "a@x.com") ].

Definition alicia : list (string * pyval) :=
  [ ("name", VStr "Alicia"); ("email", VStr "a@x.com") ].

(** The [__dict__] the constructor of [Person] gives for [kwargs]. *)
Definition person_dict (kwargs : list (string * pyval)) : gmap string pyval :=
  <["_sa_instance_state" := VObj 1 true]> (list_to_map kwargs).

(** The world after a first [Person] was created in mode [get]. *)
Definition one_person : world (list addr) :=
  (_create (options (Some session) (VStr "get") false false) Person [] alice
     empty_world).2.

(** The world after the constructor ran for a second [Person] with the
    same [email], and after the lookup that follows. *)
Definition second_built : world (list addr) :=
  constructed Person [] alicia (person_dict alicia) one_person.

Definition second_looked_up : world (list addr) :=
  (find_existing session 1 Person second_built).2.

End Mem.


(** ** The other checker and the option defaults *)

Inductive warning_category : Type :=
| DeprecationWarning.

(** One call of [warnings.warn]. *)
Record warning : Type := {
  w_message : string;
  w_category : warning_category;
  w_stacklevel : nat
}.

(** [SQLAlchemyOptions._check_force_flush]: the warnings it emits. *)
Definition _check_force_flush (meta : string) (value : pyval) : list warning :=
  if truthy value then
    [ {| w_message :=
           meta ++ ".force_flush has been deprecated as of 2.8.0 and will be removed in 3.0.0. "
                ++ "Please set ``" ++ meta
                ++ ".sqlalchemy_session_persistence = 'flush'`` instead.";
         w_category := DeprecationWarning;
         w_stacklevel := 6 |} ]
  else [].

(** [base.OptionDefault], as this file builds it: a name, a default value,
    the [inherit] flag and an optional checker. A checker is run on the
    options holder and a value; it raises or returns, and may warn. *)
Record OptionDefault : Type := {
  od_name : string;
  od_value : pyval;
  od_inherit : bool;
  od_checker : option (string → pyval → result unit * list warning)
}.

(** [SQLAlchemyOptions._build_default_options]; [base_defaults] is what
    the same method of [base.FactoryOptions] returns. *)
Definition _build_default_options (base_defaults : list OptionDefault)
  : list OptionDefault :=
  (base_defaults ++
   [ {| od_name := "sqlalchemy_session"; od_value := VNone;
        od_inherit := true; od_checker := None |};
     {| od_name := "sqlalchemy_session_persistence"; od_value := VNone;
        od_inherit := true;
        od_checker :=
          Some (λ meta value,
                  (_check_sqlalchemy_session_persistence meta value, [])) |};
     {| od_name := "force_flush"; od_value := VBool false;
        od_inherit := true;
        od_checker := Some (λ meta value, (Ok tt, _check_force_flush meta value)) |};
     {| od_name := "sqlalchemy_update_existing"; od_value := VBool false;
        od_inherit := true; od_checker := None |} ])%list.

(** Running the checker of an option, when it has one. *)
Definition run_checker (o : OptionDefault) (meta : string) (value : pyval)
  : result unit * list warning :=
  match od_checker o with
  | Some check => check meta value
  | None => (Ok tt, [])
  end.

(** ** Vocabulary for the statements about [_create] *)

(** The mode [_create] dispatches on: ['flush'] under a truthy
    [force_flush], the configured one otherwise. *)
Definition effective_persistence {D} (meta : Options D) : pyval :=
  if truthy (force_flush meta) then SESSION_PERSISTENCE_FLUSH
  else sqlalchemy_session_persistence meta.

(** The calls to the session a mode can lead to. *)
Definition permitted (session_persistence : pyval) (e : event) : bool :=
  match e with
  | EvConstruct _ _ _ => false
  | EvQuery _ _ _ =>
      py_eq session_persistence SESSION_PERSISTENCE_CHECK_AND_MERGE
      || py_eq session_persistence SESSION_PERSISTENCE_GET_OR_ADD
  | EvMerge _ =>
      py_eq session_persistence SESSION_PERSISTENCE_MERGE
      || py_eq session_persistence SESSION_PERSISTENCE_CHECK_AND_MERGE
      || py_eq session_persistence SESSION_PERSISTENCE_GET_OR_ADD
  | EvFlush =>
      py_eq session_persistence SESSION_PERSISTENCE_CHECK_AND_MERGE
      || py_eq session_persistence SESSION_PERSISTENCE_FLUSH
  | EvCommit =>
      py_eq session_persistence SESSION_PERSISTENCE_MERGE
      || py_eq session_persistence SESSION_PERSISTENCE_GET_OR_ADD
      || py_eq session_persistence SESSION_PERSISTENCE_COMMIT
  | EvAdd _ =>
      py_eq session_persistence SESSION_PERSISTENCE_GET_OR_ADD
      || py_eq session_persistence SESSION_PERSISTENCE_ADD
  end.

(** A computation that, from any world, logs only events that satisfy [P]. *)
Definition logs_only {D A} (P : event → bool) (m : M D A) : Prop :=
  ∀ w r w', m w = (r, w') →
    ∃ evs, log w' = (log w ++ evs)%list ∧ forallb P evs = true.

(** More inputs for the in-memory session. *)
Module MemMore.




(** The heap of [Mem.second_built]: the row 0 of Alice and the candidate 1
    of Alicia. *)
Definition two_people : gmap nat (gmap string pyval) :=
  heap (st Mem.second_built).

(** A class whose [email] attribute is a raw column. *)
Definition Legacy : ModelClass := {|
  mc_name := "Legacy";
  mc_declared :=
    [ {| c_kind := UniqueConstraint; c_columns := [ {| col_key := "email" |} ] |} ];
  mc_constraints :=
    [ {| c_kind := UniqueConstraint; c_columns := [ {| col_key := "email" |} ] |} ];
  mc_attrs := <["email" := CColumn "email"]> ∅;
  mc_init := Mem.person_init
|}.







(** A candidate whose [score] is NaN facing a row whose [score] is 1. *)
Definition nan_heap : gmap nat (gmap string pyval) :=
  <[0 := <["score" := VInt 1]> ∅]> (<[1 := <["score" := VNaN]> ∅]> ∅).

End MemMore.

(** * Theorems *)

(** ** Python values *)

(** [==] is reflexive on every value but NaN. *)
Lemma py_eq_refl (v : pyval) : v ≠ VNaN → py_eq v v = true.
Proof.
  intros Hnan. destruct v as [|b|z|s| |i t]; simpl.
  - reflexivity.
  - by destruct b.
  - apply Z.eqb_refl.
  - apply String.eqb_refl.
  - done.
  - apply N.eqb_refl.
Qed.

Lemma py_eq_nan (v : pyval) : py_eq VNaN v = false.
Proof. reflexivity. Qed.

Lemma py_eq_str (v : pyval) (s : string) : py_eq v (VStr s) = true ↔ v = VStr s.
Proof.
  destruct v as [|b|z|t| |i t]; simpl; try (split; [discriminate | congruence]).
  rewrite String.eqb_eq. split; congruence.
Qed.

Lemma py_eq_none (v : pyval) : py_eq v VNone = true ↔ v = VNone.
Proof. destruct v; simpl; split; congruence. Qed.

Lemma py_eq_str_false (v : pyval) (s : string) : v ≠ VStr s → py_eq v (VStr s) = false.
Proof.
  intros Hne. destruct (py_eq v (VStr s)) eqn:E; [|done].
  by apply py_eq_str in E.
Qed.

(** ** The option checker *)

Lemma valid_types_repr :
  py_repr_list VALID_SESSION_PERSISTENCE_TYPES
  = "[None, 'commit', 'flush', 'merge', 'check', 'get', 'add']".
Proof. reflexivity. Qed.

(** Membership in the list of legal values is equality with one of them:
    [==] relates None and the strings to nothing but themselves. *)
Lemma py_in_valid (value : pyval) :
  py_in value VALID_SESSION_PERSISTENCE_TYPES = true
  ↔ value ∈ VALID_SESSION_PERSISTENCE_TYPES.
Proof.
  unfold py_in, VALID_SESSION_PERSISTENCE_TYPES. rewrite existsb_exists. split.
  - intros (y & Hy & Heq). apply list_elem_of_In.
    assert (value = y) as ->; [|done].
    simpl in Hy. destruct Hy as [<-|Hy]; [by apply py_eq_none|].
    repeat (destruct Hy as [<-|Hy]; [by apply py_eq_str|]). done.
  - intros Hin. exists value. split; [by apply list_elem_of_In|].
    apply py_eq_refl. intros ->.
    by apply (bool_decide_eq_false_1
                (VNaN ∈ [VNone; SESSION_PERSISTENCE_COMMIT; SESSION_PERSISTENCE_FLUSH;
                         SESSION_PERSISTENCE_MERGE; SESSION_PERSISTENCE_CHECK_AND_MERGE;
                         SESSION_PERSISTENCE_GET_OR_ADD; SESSION_PERSISTENCE_ADD])).
Qed.

(** C9. The checker accepts None and the six mode strings and nothing
    else: every other value raises a [TypeError] whose message starts with
    the name of the offending class's options, lists the seven legal values
    and ends with the value given. *)
Theorem check_session_persistence_spec (meta : string) (value : pyval) :
  (value ∈ [VNone; VStr "commit"; VStr "flush"; VStr "merge";
            VStr "check"; VStr "get"; VStr "add"]
   → _check_sqlalchemy_session_persistence meta value = Ok tt)
  ∧ (value ∉ [VNone; VStr "commit"; VStr "flush"; VStr "merge";
              VStr "check"; VStr "get"; VStr "add"]
     → _check_sqlalchemy_session_persistence meta value
       = Raise (TypeError
           (meta ++ ".sqlalchemy_session_persistence must be one of "
                 ++ "[None, 'commit', 'flush', 'merge', 'check', 'get', 'add']"
                 ++ ", got " ++ py_repr value))).
Proof.
  unfold _check_sqlalchemy_session_persistence, py_not_in. split; intros Hv.
  - apply py_in_valid in Hv. by rewrite Hv.
  - destruct (py_in value VALID_SESSION_PERSISTENCE_TYPES) eqn:E.
    + by apply py_in_valid in E.
    + reflexivity.
Qed.

Lemma check_session_persistence_witness :
  _check_sqlalchemy_session_persistence "PersonFactory.Meta" (VStr "get") = Ok tt
  ∧ _check_sqlalchemy_session_persistence "PersonFactory.Meta" (VStr "save")
    = Raise (TypeError
        "PersonFactory.Meta.sqlalchemy_session_persistence must be one of [None, 'commit', 'flush', 'merge', 'check', 'get', 'add'], got 'save'").
Proof.
  split.
  - apply (proj1 (check_session_persistence_spec "PersonFactory.Meta" (VStr "get"))).
    apply (bool_decide_eq_true_1 _). reflexivity.
  - apply (proj2 (check_session_persistence_spec "PersonFactory.Meta" (VStr "save"))).
    apply (bool_decide_eq_false_1 _). reflexivity.
Defined.

Example check_rejects_true : ∃ msg,
  _check_sqlalchemy_session_persistence "Meta" (VBool true) = Raise (TypeError msg).
Proof. eexists. reflexivity. Qed.

Example check_rejects_upper_case : ∃ msg,
  _check_sqlalchemy_session_persistence "Meta" (VStr "Flush") = Raise (TypeError msg).
Proof. eexists. reflexivity. Qed.

(** ** The dispatcher *)

Section Dispatch.

Context {D : Type}.
Implicit Types (meta : Options D) (session : Session D) (w : world D).
Implicit Types (model_class : ModelClass) (args : list pyval).
Implicit Types (kwargs : list (string * pyval)).

Lemma construct_ok model_class args kwargs d w :
  mc_init model_class args kwargs = Ok d →
  construct model_class args kwargs w
  = (Ok (new_ref w), constructed model_class args kwargs d w).
Proof. intros Hd. unfold construct. by rewrite Hd. Qed.

Lemma construct_raise model_class args kwargs e w :
  mc_init model_class args kwargs = Raise e →
  construct (D := D) model_class args kwargs w
  = (Raise e, record_event (EvConstruct (mc_name model_class) args kwargs) w).
Proof. intros Hd. unfold construct. by rewrite Hd. Qed.

Lemma new_ref_fresh w : heap (st w) !! new_ref w = None.
Proof. apply not_elem_of_dom. unfold new_ref. apply is_fresh. Qed.

Lemma constructed_log model_class args kwargs d w :
  log (constructed model_class args kwargs d w)
  = (log w ++ [EvConstruct (mc_name model_class) args kwargs])%list.
Proof. reflexivity. Qed.

(** The membership test of the check-and-merge branch is one comparison. *)
Lemma check_membership (mode : pyval) :
  py_in mode [VStr "check"; SESSION_PERSISTENCE_CHECK_AND_MERGE]
  = py_eq mode (VStr "check").
Proof.
  unfold py_in, SESSION_PERSISTENCE_CHECK_AND_MERGE. simpl.
  by destruct (py_eq mode (VStr "check")).
Qed.

(** C10. The constant [SESSION_PERSISTENCE_CHECK_AND_MERGE] is the string
    ['check'], the membership test over it and the literal is the equality
    test with ['check'] for every mode value, and [_create] is the same
    function when the branch is chosen by that single comparison. *)
Theorem check_dispatch_is_single_test :
  SESSION_PERSISTENCE_CHECK_AND_MERGE = VStr "check"
  ∧ (∀ mode : pyval,
       py_in mode [VStr "check"; SESSION_PERSISTENCE_CHECK_AND_MERGE]
       = py_eq mode (VStr "check"))
  ∧ (∀ meta model_class args kwargs w,
       _create meta model_class args kwargs w
       = _create_single_test meta model_class args kwargs w).
Proof.
  split; [reflexivity|]. split; [apply check_membership|].
  intros meta model_class args kwargs w.
  unfold _create, _create_single_test.
  by rewrite check_membership.
Qed.

(** C3. With a truthy [force_flush], [_create] is the function it is
    when the mode is ['flush']: whatever mode is configured, the final
    store, the calls logged and the value returned or the exception raised
    are those of the options with mode ['flush'], with the flag kept or
    cleared. *)
Theorem force_flush_supersedes_mode meta model_class args kwargs w :
  truthy (force_flush meta) = true →
  _create meta model_class args kwargs w
  = _create (with_persistence (VStr "flush") (force_flush meta) meta)
      model_class args kwargs w
  ∧ _create meta model_class args kwargs w
    = _create (with_persistence (VStr "flush") (VBool false) meta)
        model_class args kwargs w.
Proof.
  intros Hforce. unfold _create, with_persistence. simpl. by rewrite Hforce.
Qed.

(** C2, as the code has it. With no session configured, whatever the
    mode and the flags, [_create] never returns: it raises, and the only
    call it has made by then is the one to the model constructor, so no
    query, merge, flush, commit or add was attempted. The exception is the
    [RuntimeError] whenever the constructor returned; when the constructor
    raises, the exception is the constructor's. *)
Theorem create_without_session_raises meta model_class args kwargs w :
  sqlalchemy_session meta = None →
  ∃ w',
    _create meta model_class args kwargs w
    = (Raise match mc_init model_class args kwargs with
             | Ok _ => RuntimeError "No session provided."
             | Raise e => e
             end, w')
    ∧ log w' = (log w ++ [EvConstruct (mc_name model_class) args kwargs])%list
    ∧ List.filter is_session_event (log w') = List.filter is_session_event (log w).
Proof.
  intros Hnone. unfold _create, bind. rewrite Hnone.
  destruct (mc_init model_class args kwargs) as [d|e] eqn:Hinit.
  - rewrite (construct_ok _ _ _ d) by done. eexists. split; [reflexivity|].
    rewrite constructed_log. split; [done|].
    rewrite List.filter_app. simpl. by rewrite app_nil_r.
  - rewrite (construct_raise _ _ _ e) by done. eexists. split; [reflexivity|].
    simpl. split; [done|].
    rewrite List.filter_app. simpl. by rewrite app_nil_r.
Qed.

(** C1, as the code has it. With no session configured the model
    constructor is called first; when it returns, the new instance is in
    the heap under a reference that was free, and only then is the
    [RuntimeError] raised. *)
Theorem create_without_session_after_construction
    meta model_class args kwargs d w :
  sqlalchemy_session meta = None →
  mc_init model_class args kwargs = Ok d →
  _create meta model_class args kwargs w
  = (Raise (RuntimeError "No session provided."),
     constructed model_class args kwargs d w)
  ∧ heap (st w) !! new_ref w = None
  ∧ heap (st (constructed model_class args kwargs d w)) !! new_ref w = Some d.
Proof.
  intros Hnone Hinit. unfold _create, bind.
  rewrite Hnone, (construct_ok _ _ _ d) by done.
  split; [reflexivity|]. split; [apply new_ref_fresh|].
  simpl. apply lookup_insert_eq.
Qed.

(** C8. In mode ['add'] (the flush-forcing flag off), with a session and
    a constructor that returns: the one call made to the session is [add]
    on the new instance, and [_create] returns that instance when [add]
    returns. *)
Theorem create_add_only meta session model_class args kwargs d w :
  sqlalchemy_session meta = Some session →
  truthy (force_flush meta) = false →
  sqlalchemy_session_persistence meta = VStr "add" →
  mc_init model_class args kwargs = Ok d →
  let obj := new_ref w in
  let w1 := constructed model_class args kwargs d w in
  _create meta model_class args kwargs w
  = (returning (add_op session obj (st w1)).1 obj,
     {| st := (add_op session obj (st w1)).2;
        log := log w ++ [EvConstruct (mc_name model_class) args kwargs; EvAdd obj] |})
  ∧ List.filter is_session_event
      (log (_create meta model_class args kwargs w).2)
    = (List.filter is_session_event (log w) ++ [EvAdd obj])%list.
Proof.
  intros Hs Hforce Hmode Hinit obj w1.
  assert (_create meta model_class args kwargs w
    = (returning (add_op session obj (st w1)).1 obj,
       {| st := (add_op session obj (st w1)).2;
          log := log w ++ [EvConstruct (mc_name model_class) args kwargs; EvAdd obj] |}))
    as Hrun.
  { unfold _create, bind. rewrite Hs, Hforce, Hmode, (construct_ok _ _ _ d) by done.
    subst obj w1. unfold session_add, call, ret. simpl.
    destruct (add_op session _ _) as [[[]|e] s']; simpl;
      by rewrite <- app_assoc. }
  split; [exact Hrun|].
  rewrite Hrun. simpl. rewrite List.filter_app. reflexivity.
Qed.

End Dispatch.

(** ** The deduplication lookup *)

Section Lookup.

Context {D : Type}.
Implicit Types (session : Session D) (w : world D) (model_cls : ModelClass).

Lemma call_run {A} (ev : event) (f : store D → result A * store D) w :
  call ev f w = ((f (st w)).1, {| st := (f (st w)).2; log := log w ++ [ev] |}).
Proof. unfold call. by destruct (f (st w)). Qed.

Lemma find_existing_columns_app session obj model_cls cols1 cols2 w :
  find_existing_columns session obj model_cls (cols1 ++ cols2) w
  = (let* hit := find_existing_columns session obj model_cls cols1 in
     match hit with
     | Some e => ret (Some e)
     | None => find_existing_columns session obj model_cls cols2
     end) w.
Proof.
  revert w. induction cols1 as [|col rest IH]; intros w; simpl; [done|].
  unfold bind in IH |- *.
  destruct (truthy (getattr (heap (st w)) obj (col_key col))); [|apply IH].
  destruct (bool_cls (getattr_cls model_cls (col_key col))) as [[|]|x];
    [|apply IH|done].
  destruct (session_query _ _ _ _ w) as [[[e|]|x] w']; [done|apply IH|done].
Qed.

(** The two loops of [find_existing] are one loop over the columns of the
    constraints, constraint after constraint. *)
Lemma find_existing_constraints_flat session obj model_cls constraints w :
  find_existing_constraints session obj model_cls constraints w
  = find_existing_columns session obj model_cls (flat_map c_columns constraints) w.
Proof.
  revert w. induction constraints as [|const rest IH]; intros w; simpl; [done|].
  rewrite find_existing_columns_app. unfold bind.
  destruct (find_existing_columns session obj model_cls (c_columns const) w)
    as [[[e|]|x] w']; [done|apply IH|done].
Qed.

Lemma find_existing_flat session obj model_cls w :
  find_existing session obj model_cls w
  = find_existing_columns session obj model_cls (unique_columns model_cls) w.
Proof. unfold find_existing, unique_columns. apply find_existing_constraints_flat. Qed.



(** The lookup makes no call but queries. *)
Lemma find_existing_columns_log session obj model_cls cols w r w' :
  find_existing_columns session obj model_cls cols w = (r, w') →
  ∃ qs, log w' = (log w ++ qs)%list ∧ forallb is_query qs = true.
Proof.
  revert w. induction cols as [|col rest IH]; intros w; simpl.
  - intros [= <- <-]. exists []. by rewrite app_nil_r.
  - destruct (truthy (getattr (heap (st w)) obj (col_key col))); [|apply IH].
    destruct (bool_cls (getattr_cls model_cls (col_key col))) as [[|]|x];
      [|apply IH|].
    + unfold bind, session_query. rewrite call_run.
      destruct (query_first session _ _ _ (st w)) as [[[e|]|x] s'] eqn:Hq; simpl.
      * intros [= <- <-]. by eexists [_].
      * intros Hrest. apply IH in Hrest as (qs & Hlog & Hqs). simpl in Hlog.
        eexists (_ :: qs). rewrite Hlog, <- app_assoc. by split.
      * intros [= <- <-]. by eexists [_].
    + intros [= <- <-]. exists []. by rewrite app_nil_r.
Qed.

Lemma find_existing_log session obj model_cls w r w' :
  find_existing session obj model_cls w = (r, w') →
  ∃ qs, log w' = (log w ++ qs)%list ∧ forallb is_query qs = true.
Proof. rewrite find_existing_flat. apply find_existing_columns_log. Qed.


(** Through a session whose queries only read, the lookup leaves the
    store as it found it, however it ends. *)
Lemma find_existing_columns_read_only session obj model_cls cols w r w' :
  read_only session →
  find_existing_columns session obj model_cls cols w = (r, w') →
  st w' = st w.
Proof.
  intros Hro. revert w. induction cols as [|col rest IH]; intros w; simpl.
  - by intros [= <- <-].
  - destruct (truthy (getattr (heap (st w)) obj (col_key col))); [|apply IH].
    destruct (bool_cls (getattr_cls model_cls (col_key col))) as [[|]|x];
      [|apply IH|by intros [= <- <-]].
    unfold bind, session_query. rewrite call_run.
    destruct (Hro (mc_name model_cls) (getattr_cls model_cls (col_key col))
                (getattr (heap (st w)) obj (col_key col)) (st w)) as [hit Hq].
    rewrite Hq. simpl. destruct hit as [e|].
    + by intros [= <- <-].
    + intros Hrest. by apply IH in Hrest.
Qed.


End Lookup.


(** ** The field merge *)

Section FieldMerge.

Implicit Types (h : gmap nat (gmap string pyval)) (d m : gmap string pyval).

Lemma attr_dict_lookup h existing k :
  attr_dict h existing !! k
  = match instance_dict h existing !! k with
    | Some v => if is_internal k then None else Some v
    | None => None
    end.
Proof.
  unfold attr_dict. rewrite map_lookup_filter.
  destruct (instance_dict h existing !! k) as [v|]; simpl; [|done].
  destruct (is_internal k); by case_guard.
Qed.

Lemma update_existing_loop_snoc obj existing items k v h :
  update_existing_loop obj existing (items ++ [(k, v)]) h
  = update_existing_step obj existing k v (update_existing_loop obj existing items h).
Proof. unfold update_existing_loop. by rewrite fold_left_app. Qed.

(** The loop over any items with distinct keys: the row stays alive, the
    other instances are left alone, and the row holds at [k] the
    candidate's value when [k] is an item whose value the candidate
    overrides. *)
Lemma update_existing_loop_spec h obj existing d items :
  h !! existing = Some d →
  NoDup (items.*1) →
  let h' := update_existing_loop obj existing items h in
  is_Some (h' !! existing)
  ∧ (∀ a, a ≠ existing → h' !! a = h !! a)
  ∧ (∀ k, instance_dict h' existing !! k
          = match (list_to_map items : gmap string pyval) !! k with
            | Some v =>
                if truthy (getattr h obj k) && py_ne (getattr h obj k) v
                then Some (getattr h obj k)
                else d !! k
            | None => d !! k
            end).
Proof.
  intros Hd. simpl. induction items as [|[i x] items IH] using rev_ind; intros Hnodup.
  - unfold update_existing_loop. simpl. split; [by rewrite Hd|]. split; [done|].
    intros k. rewrite lookup_empty. unfold instance_dict. by rewrite Hd.
  - rewrite fmap_app in Hnodup. apply NoDup_app in Hnodup as (Hitems & Hnew & _).
    assert (i ∉ items.*1) as Hi.
    { intros Hin. apply (Hnew i Hin). simpl. left. }
    destruct (IH Hitems) as (Halive & Hframe & Hrow).
    rewrite update_existing_loop_snoc, list_to_map_snoc by done.
    set (r := update_existing_loop obj existing items h) in *.
    apply not_elem_of_list_to_map_1 in Hi.
    assert (getattr r obj i = getattr h obj i) as Hread.
    { unfold getattr. destruct (decide (obj = existing)) as [->|Hne].
      - rewrite Hrow, Hi. unfold instance_dict. by rewrite Hd.
      - unfold instance_dict. by rewrite Hframe. }
    unfold update_existing_step. rewrite Hread.
    destruct (truthy (getattr h obj i) && py_ne (getattr h obj i) x) eqn:Hcond.
    + unfold setattr. split; [|split].
      * rewrite lookup_alter_eq. destruct Halive as [d' ->]. by eexists.
      * intros a Ha. rewrite lookup_alter_ne by done. by apply Hframe.
      * intros k. unfold instance_dict at 1. rewrite lookup_alter_eq.
        destruct Halive as [d' Hd']. rewrite Hd'. simpl.
        destruct (decide (i = k)) as [->|Hne].
        -- by rewrite !lookup_insert_eq, Hcond.
        -- rewrite !lookup_insert_ne by done.
           specialize (Hrow k). unfold instance_dict in Hrow.
           by rewrite Hd' in Hrow.
    + split; [done|]. split; [done|]. intros k.
      destruct (decide (i = k)) as [->|Hne].
      * by rewrite lookup_insert_eq, Hcond, Hrow, Hi.
      * rewrite lookup_insert_ne by done. apply Hrow.
Qed.

(** Section 4.4 on the code: whatever the order in which the items of
    [attr_dict] are visited, after the loop the row [existing] holds at
    every key what [merged_field] says, and no other instance changed. *)
Lemma update_existing_loop_heap h obj existing items :
  items ≡ₚ map_to_list (attr_dict h existing) →
  let h' := update_existing_loop obj existing items h in
  (is_Some (h !! existing) → is_Some (h' !! existing))
  ∧ (∀ a, a ≠ existing → h' !! a = h !! a)
  ∧ (∀ k, instance_dict h' existing !! k
          = merged_field (instance_dict h obj) (instance_dict h existing) k).
Proof.
  intros Hperm. simpl. destruct (h !! existing) as [d|] eqn:Hd.
  - assert (NoDup (items.*1)) as Hnodup.
    { rewrite Hperm. apply NoDup_fst_map_to_list. }
    assert ((list_to_map items : gmap string pyval) = attr_dict h existing) as Hmap.
    { rewrite (list_to_map_proper _ _ Hnodup Hperm). apply list_to_map_to_list. }
    destruct (update_existing_loop_spec h obj existing d items Hd Hnodup)
      as (Halive & Hframe & Hrow).
    assert (instance_dict h existing = d) as Hid.
    { unfold instance_dict. by rewrite Hd. }
    split; [done|]. split; [exact Hframe|]. intros k.
    rewrite Hrow, Hmap, attr_dict_lookup.
    unfold merged_field. rewrite Hid. fold (getattr h obj k).
    destruct (d !! k) as [v|] eqn:Hk; [|done].
    destruct (is_internal k); simpl; [done|].
    by destruct (truthy (getattr h obj k) && py_ne (getattr h obj k) v).
  - assert (attr_dict h existing = ∅) as Hempty.
    { unfold attr_dict, instance_dict. rewrite Hd. simpl. apply map_filter_empty. }
    rewrite Hempty, map_to_list_empty in Hperm.
    apply Permutation_nil_r in Hperm as ->. simpl.
    split; [by intros [? ?]|]. split; [done|]. intros k.
    assert (instance_dict h existing = ∅) as Hid.
    { unfold instance_dict. by rewrite Hd. }
    unfold merged_field. rewrite Hid. by rewrite lookup_empty.
Qed.

Lemma update_existing_heap h obj existing :
  let h' := update_existing_loop obj existing (map_to_list (attr_dict h existing)) h in
  (∀ a, a ≠ existing → h' !! a = h !! a)
  ∧ (∀ k, instance_dict h' existing !! k
          = merged_field (instance_dict h obj) (instance_dict h existing) k).
Proof.
  simpl.
  destruct (update_existing_loop_heap h obj existing
              (map_to_list (attr_dict h existing))) as (_ & Hframe & Hrow); done.
Qed.

(** X18. The order of the turns of the loop of [update_existing] does
    not show: visiting the items of [attr_dict] in any order ends in the
    same heap. *)
Lemma update_existing_any_order h obj existing items :
  items ≡ₚ map_to_list (attr_dict h existing) →
  update_existing_loop obj existing items h
  = update_existing_loop obj existing (map_to_list (attr_dict h existing)) h.
Proof.
  intros Hperm.
  destruct (update_existing_loop_heap h obj existing items Hperm)
    as (Halive1 & Hframe1 & Hrow1).
  destruct (update_existing_loop_heap h obj existing
              (map_to_list (attr_dict h existing))) as (Halive2 & Hframe2 & Hrow2);
    [done|].
  apply map_eq. intros a. destruct (decide (a = existing)) as [->|Hne].
  - destruct (h !! existing) as [d|] eqn:Hd.
    + destruct Halive1 as [d1 Hd1]; [by eexists|].
      destruct Halive2 as [d2 Hd2]; [by eexists|].
      rewrite Hd1, Hd2. f_equal. apply map_eq. intros k.
      specialize (Hrow1 k). specialize (Hrow2 k).
      unfold instance_dict in Hrow1 at 1. unfold instance_dict in Hrow2 at 1.
      rewrite Hd1 in Hrow1. rewrite Hd2 in Hrow2. simpl in *. congruence.
    + assert (attr_dict h existing = ∅) as Hempty.
      { unfold attr_dict, instance_dict. rewrite Hd. simpl. apply map_filter_empty. }
      rewrite Hempty, map_to_list_empty in Hperm |- *.
      by apply Permutation_nil_r in Hperm as ->.
  - by rewrite Hframe1, Hframe2.
Qed.

End FieldMerge.

(** ** The deduplicating modes *)

Section Dedup.

Context {D : Type}.
Implicit Types (meta : Options D) (session : Session D) (w : world D).
Implicit Types (model_class : ModelClass) (args : list pyval).
Implicit Types (kwargs : list (string * pyval)).

Lemma session_merge_run session o w :
  session_merge session o w
  = ((merge_op session o (st w)).1,
     {| st := (merge_op session o (st w)).2; log := log w ++ [EvMerge o] |}).
Proof. apply call_run. Qed.

Lemma session_flush_run session w :
  session_flush session w
  = ((flush_op session (st w)).1,
     {| st := (flush_op session (st w)).2; log := log w ++ [EvFlush] |}).
Proof. apply call_run. Qed.

Lemma session_commit_run session w :
  session_commit session w
  = ((commit_op session (st w)).1,
     {| st := (commit_op session (st w)).2; log := log w ++ [EvCommit] |}).
Proof. apply call_run. Qed.

Lemma session_add_run session o w :
  session_add session o w
  = ((add_op session o (st w)).1,
     {| st := (add_op session o (st w)).2; log := log w ++ [EvAdd o] |}).
Proof. apply call_run. Qed.

(** What the lookup logged after the construction: queries only. *)
Lemma lookup_after_construction_log session model_class args kwargs d w r w2 :
  find_existing session (new_ref w) model_class
    (constructed model_class args kwargs d w) = (r, w2) →
  ∃ qs, log w2 = (log w ++ EvConstruct (mc_name model_class) args kwargs :: qs)%list
        ∧ forallb is_query qs = true.
Proof.
  intros Hfind. apply find_existing_log in Hfind as (qs & Hlog & Hqs).
  exists qs. split; [|done].
  rewrite Hlog, constructed_log, <- app_assoc. reflexivity.
Qed.

(** A lookup through a session whose queries only read leaves the store
    as it found it. *)
Lemma find_existing_read_only_store session obj model_class w r w2 :
  read_only session →
  find_existing session obj model_class w = (r, w2) →
  st w2 = st w.
Proof.
  intros Hro Hfind. rewrite find_existing_flat in Hfind.
  by eapply find_existing_columns_read_only.
Qed.

(** C5. In mode ['check'] with the update-existing flag falsy, when the
    lookup finds a row, [_create] returns that row and stops there: the
    world is the one the lookup left, the new instance is dropped, and the
    calls logged after the constructor are queries only, so neither merge
    nor flush took place. On a session whose queries only read, every
    instance that existed before the call holds what it held. *)
Theorem create_check_returns_existing
    meta session model_class args kwargs d w existing w2 :
  sqlalchemy_session meta = Some session →
  truthy (force_flush meta) = false →
  sqlalchemy_session_persistence meta = VStr "check" →
  truthy (sqlalchemy_update_existing meta) = false →
  mc_init model_class args kwargs = Ok d →
  find_existing session (new_ref w) model_class
    (constructed model_class args kwargs d w) = (Ok (Some existing), w2) →
  _create meta model_class args kwargs w = (Ok existing, w2)
  ∧ (∃ qs, log w2 = (log w ++ EvConstruct (mc_name model_class) args kwargs :: qs)%list
           ∧ forallb is_query qs = true)
  ∧ (read_only session →
     ∀ a, a ≠ new_ref w → heap (st w2) !! a = heap (st w) !! a).
Proof.
  intros Hs Hforce Hmode Hupd Hinit Hfind. split; [|split].
  - unfold _create, bind.
    rewrite Hs, Hforce, Hmode, (construct_ok _ _ _ d), check_membership by done.
    simpl. by rewrite Hfind, Hupd.
  - by eapply lookup_after_construction_log.
  - intros Hro a Ha.
    rewrite (find_existing_read_only_store _ _ _ _ _ _ Hro Hfind).
    simpl. by rewrite lookup_insert_ne.
Qed.

(** C6. In mode ['get']: when the lookup finds a row, the one call made
    after it is [merge] on that row, and [_create] returns the row the
    lookup found, whatever [merge] hands back; nothing is added or
    committed. When the lookup finds nothing, the new instance is added,
    the session committed, and the new instance returned. *)
Theorem create_get_or_add meta session model_class args kwargs d w :
  sqlalchemy_session meta = Some session →
  truthy (force_flush meta) = false →
  sqlalchemy_session_persistence meta = VStr "get" →
  mc_init model_class args kwargs = Ok d →
  let obj := new_ref w in
  let w1 := constructed model_class args kwargs d w in
  (∀ existing w2,
     find_existing session obj model_class w1 = (Ok (Some existing), w2) →
     _create meta model_class args kwargs w
     = (returning (merge_op session existing (st w2)).1 existing,
        {| st := (merge_op session existing (st w2)).2;
           log := log w2 ++ [EvMerge existing] |})
     ∧ ∃ qs, log w2 = (log w ++ EvConstruct (mc_name model_class) args kwargs :: qs)%list
             ∧ forallb is_query qs = true)
  ∧ (∀ w2,
       find_existing session obj model_class w1 = (Ok None, w2) →
       _create meta model_class args kwargs w
       = match (add_op session obj (st w2)).1 with
         | Raise x =>
             (Raise x,
              {| st := (add_op session obj (st w2)).2;
                 log := log w2 ++ [EvAdd obj] |})
         | Ok _ =>
             let s3 := (add_op session obj (st w2)).2 in
             (returning (commit_op session s3).1 obj,
              {| st := (commit_op session s3).2;
                 log := log w2 ++ [EvAdd obj; EvCommit] |})
         end).
Proof.
  intros Hs Hforce Hmode Hinit obj w1. subst obj w1. split.
  - intros existing w2 Hfind. split; [|by eapply lookup_after_construction_log].
    unfold _create, bind.
    rewrite Hs, Hforce, Hmode, (construct_ok _ _ _ d) by done.
    simpl. rewrite Hfind, session_merge_run.
    by destruct (merge_op session existing (st w2)) as [[m|x] s3].
  - intros w2 Hfind. unfold _create, bind.
    rewrite Hs, Hforce, Hmode, (construct_ok _ _ _ d) by done.
    simpl. rewrite Hfind, session_add_run.
    destruct (add_op session (new_ref w) (st w2)) as [[[]|x] s3]; simpl; [|done].
    rewrite session_commit_run. simpl. rewrite <- app_assoc. simpl.
    by destruct (commit_op session s3) as [[[]|x] s4].
Qed.

(** C4. In mode ['check'] with the update-existing flag truthy, when the
    lookup finds a row: the row is updated in place, field by field, as
    section 4.4 says (a truthy value of the new instance that differs from
    the row's replaces it at every key of the row that does not start with
    [_sa]; a falsy value replaces nothing; every other key and every other
    instance is left alone); then the row is merged, the session flushed,
    and what [merge] handed back for the row is returned. *)
Theorem create_check_updates_existing
    meta session model_class args kwargs d w existing w2 :
  sqlalchemy_session meta = Some session →
  truthy (force_flush meta) = false →
  sqlalchemy_session_persistence meta = VStr "check" →
  truthy (sqlalchemy_update_existing meta) = true →
  mc_init model_class args kwargs = Ok d →
  find_existing session (new_ref w) model_class
    (constructed model_class args kwargs d w) = (Ok (Some existing), w2) →
  let obj := new_ref w in
  let h2 := heap (st w2) in
  ∃ h3,
    (∀ k v, instance_dict h2 existing !! k = Some v →
            is_internal k = false →
            truthy (getattr h2 obj k) = true →
            py_ne (getattr h2 obj k) v = true →
            instance_dict h3 existing !! k = Some (getattr h2 obj k))
    ∧ (∀ k, truthy (getattr h2 obj k) = false →
            instance_dict h3 existing !! k = instance_dict h2 existing !! k)
    ∧ (∀ k, instance_dict h3 existing !! k
            = merged_field (instance_dict h2 obj) (instance_dict h2 existing) k)
    ∧ (∀ a, a ≠ existing → h3 !! a = h2 !! a)
    ∧ let merged := merge_op session existing {| heap := h3; db := db (st w2) |} in
      _create meta model_class args kwargs w
      = match merged.1 with
        | Raise x =>
            (Raise x, {| st := merged.2; log := log w2 ++ [EvMerge existing] |})
        | Ok row =>
            (returning (flush_op session merged.2).1 row,
             {| st := (flush_op session merged.2).2;
                log := log w2 ++ [EvMerge existing; EvFlush] |})
        end.
Proof.
  intros Hs Hforce Hmode Hupd Hinit Hfind obj h2.
  set (h3 := update_existing_loop obj existing (map_to_list (attr_dict h2 existing)) h2).
  destruct (update_existing_heap h2 obj existing) as [Hframe Hrow].
  fold h3 in Hframe, Hrow.
  exists h3. split; [|split; [|split; [exact Hrow|split; [exact Hframe|]]]].
  - intros k v Hk Hint Htruthy Hdiff. rewrite Hrow. unfold merged_field.
    rewrite Hk. fold (getattr h2 obj k). by rewrite Hint, Htruthy, Hdiff.
  - intros k Hfalsy. rewrite Hrow. unfold merged_field.
    fold (getattr h2 obj k). rewrite Hfalsy, andb_false_r.
    by destruct (instance_dict h2 existing !! k).
  - unfold _create, bind.
    rewrite Hs, Hforce, Hmode, (construct_ok _ _ _ d), check_membership by done.
    simpl. rewrite Hfind, Hupd. unfold update_existing.
    fold obj h2 h3. rewrite session_merge_run. simpl.
    destruct (merge_op session existing _) as [[row|x] s4]; simpl; [|done].
    rewrite session_flush_run. simpl. rewrite <- app_assoc. simpl.
    by destruct (flush_op session s4) as [[[]|x] s5].
Qed.

End Dedup.

(** ** The engine at work on the in-memory session *)

Section Scenario.

Import Mem.

(** Section 8, the scenario: the first call adds and commits the row. *)
Example scenario_first_call :
  (_create (options (Some session) (VStr "get") false false) Person []
     alice empty_world).1 = Ok 0
  ∧ log one_person
    = [ EvConstruct "Person" [] alice;
        EvQuery "Person" (CMapped "Person" "email") (VStr "a@x.com");
        EvAdd 0; EvCommit ]
  ∧ getattr (heap (st one_person)) 0 "email" = VStr "a@x.com".
Proof. vm_compute. done. Qed.

(** The second call, same [email] and another [name], gets the row of the
    first call with the first [name]. *)
Example scenario_second_call :
  (_create (options (Some session) (VStr "get") false false) Person []
     alicia one_person).1 = Ok 0
  ∧ getattr (heap (st (_create (options (Some session) (VStr "get") false false)
                         Person [] alicia one_person).2)) 0 "name"
    = VStr "Alice".
Proof. vm_compute. done. Qed.

Example new_ref_one_person : new_ref one_person = 1.
Proof. vm_compute. reflexivity. Qed.

Example second_lookup_finds_first :
  find_existing session 1 Person second_built = (Ok (Some 0), second_looked_up).
Proof. vm_compute. reflexivity. Qed.

End Scenario.

(** ** The theorems at concrete inputs *)

(** C1 as stated fails: with no session configured the constructor of
    [Person] has run, and the new instance is in the heap, when the
    [RuntimeError] is raised. *)
Lemma create_without_session_has_constructed :
  sqlalchemy_session (Mem.options None VNone false false) = None
  ∧ log Mem.empty_world = []
  ∧ heap (st Mem.empty_world) !! 0 = None
  ∧ ∃ w',
      _create (Mem.options None VNone false false) Mem.Person [] Mem.alice
        Mem.empty_world
      = (Raise (RuntimeError "No session provided."), w')
      ∧ log w' = [EvConstruct "Person" [] Mem.alice]
      ∧ heap (st w') !! 0 = Some (Mem.person_dict Mem.alice).
Proof.
  split; [reflexivity|]. split; [reflexivity|]. split; [reflexivity|].
  eexists. split; [reflexivity|]. split; vm_compute; reflexivity.
Qed.

(** C2 as stated fails: with no session configured and a constructor
    that raises, the exception is the constructor's, not the
    [RuntimeError]. *)
Lemma create_without_session_constructor_error :
  sqlalchemy_session (Mem.options None (VStr "commit") false false) = None
  ∧ _create (Mem.options None (VStr "commit") false false) Mem.Person [VInt 1]
      Mem.alice Mem.empty_world
    = (Raise (TypeError "__init__() takes 1 positional argument"),
       record_event (EvConstruct "Person" [VInt 1] Mem.alice) Mem.empty_world).
Proof. split; reflexivity. Qed.


Lemma create_without_session_after_construction_witness :
  _create (Mem.options None VNone false false) Mem.Person [] Mem.alice
    Mem.empty_world
  = (Raise (RuntimeError "No session provided."),
     constructed Mem.Person [] Mem.alice (Mem.person_dict Mem.alice) Mem.empty_world)
  ∧ heap (st Mem.empty_world) !! new_ref Mem.empty_world = None
  ∧ heap (st (constructed Mem.Person [] Mem.alice (Mem.person_dict Mem.alice)
                Mem.empty_world)) !! new_ref Mem.empty_world
    = Some (Mem.person_dict Mem.alice).
Proof.
  apply (create_without_session_after_construction
           (Mem.options None VNone false false) Mem.Person [] Mem.alice
           (Mem.person_dict Mem.alice) Mem.empty_world).
  - reflexivity.
  - reflexivity.
Defined.

Lemma create_without_session_raises_witness :
  ∃ w',
    _create (Mem.options None (VStr "commit") false true) Mem.Person []
      Mem.alice Mem.one_person
    = (Raise (RuntimeError "No session provided."), w')
    ∧ log w' = (log Mem.one_person ++ [EvConstruct "Person" [] Mem.alice])%list
    ∧ List.filter is_session_event (log w')
      = List.filter is_session_event (log Mem.one_person).
Proof.
  apply (create_without_session_raises
           (Mem.options None (VStr "commit") false true) Mem.Person []
           Mem.alice Mem.one_person).
  reflexivity.
Defined.

Lemma force_flush_supersedes_mode_witness :
  _create (Mem.options (Some Mem.session) (VStr "commit") true false)
    Mem.Person [] Mem.alice Mem.empty_world
  = _create (with_persistence (VStr "flush") (VBool true)
               (Mem.options (Some Mem.session) (VStr "commit") true false))
      Mem.Person [] Mem.alice Mem.empty_world
  ∧ _create (Mem.options (Some Mem.session) (VStr "commit") true false)
      Mem.Person [] Mem.alice Mem.empty_world
    = _create (with_persistence (VStr "flush") (VBool false)
                 (Mem.options (Some Mem.session) (VStr "commit") true false))
        Mem.Person [] Mem.alice Mem.empty_world.
Proof.
  apply (force_flush_supersedes_mode
           (Mem.options (Some Mem.session) (VStr "commit") true false)
           Mem.Person [] Mem.alice Mem.empty_world).
  reflexivity.
Defined.

Example force_flush_over_commit_flushes :
  log (_create (Mem.options (Some Mem.session) (VStr "commit") true false)
         Mem.Person [] Mem.alice Mem.empty_world).2
  = [EvConstruct "Person" [] Mem.alice; EvFlush].
Proof. vm_compute. reflexivity. Qed.

Lemma create_add_only_witness :
  (_create (Mem.options (Some Mem.session) (VStr "add") false false)
     Mem.Person [] Mem.alice Mem.empty_world).1 = Ok 0
  ∧ log (_create (Mem.options (Some Mem.session) (VStr "add") false false)
           Mem.Person [] Mem.alice Mem.empty_world).2
    = [EvConstruct "Person" [] Mem.alice; EvAdd 0].
Proof.
  destruct (create_add_only
              (Mem.options (Some Mem.session) (VStr "add") false false)
              Mem.session Mem.Person [] Mem.alice (Mem.person_dict Mem.alice)
              Mem.empty_world eq_refl eq_refl eq_refl eq_refl) as [Hrun _].
  rewrite Hrun. split; reflexivity.
Defined.


Lemma create_check_returns_existing_witness :
  _create (Mem.options (Some Mem.session) (VStr "check") false false)
    Mem.Person [] Mem.alicia Mem.one_person
  = (Ok 0, Mem.second_looked_up)
  ∧ getattr (heap (st Mem.second_looked_up)) 0 "name" = VStr "Alice".
Proof.
  destruct (create_check_returns_existing
              (Mem.options (Some Mem.session) (VStr "check") false false)
              Mem.session Mem.Person [] Mem.alicia (Mem.person_dict Mem.alicia)
              Mem.one_person 0 Mem.second_looked_up
              eq_refl eq_refl eq_refl eq_refl eq_refl second_lookup_finds_first)
    as [Hrun _].
  split; [exact Hrun|]. vm_compute. reflexivity.
Defined.

Lemma create_get_or_add_witness :
  (_create (Mem.options (Some Mem.session) (VStr "get") false false)
     Mem.Person [] Mem.alicia Mem.one_person).1 = Ok 0
  ∧ (_create (Mem.options (Some Mem.session) (VStr "get") false false)
       Mem.Person [] Mem.alice Mem.empty_world).1 = Ok 0.
Proof.
  split.
  - destruct (create_get_or_add
                (Mem.options (Some Mem.session) (VStr "get") false false)
                Mem.session Mem.Person [] Mem.alicia (Mem.person_dict Mem.alicia)
                Mem.one_person eq_refl eq_refl eq_refl eq_refl) as [Hfound _].
    destruct (Hfound 0 Mem.second_looked_up second_lookup_finds_first) as [Hrun _].
    rewrite Hrun. reflexivity.
  - destruct (create_get_or_add
                (Mem.options (Some Mem.session) (VStr "get") false false)
                Mem.session Mem.Person [] Mem.alice (Mem.person_dict Mem.alice)
                Mem.empty_world eq_refl eq_refl eq_refl eq_refl) as [_ Hnew].
    rewrite (Hnew (find_existing Mem.session 0 Mem.Person
                     (constructed Mem.Person [] Mem.alice
                        (Mem.person_dict Mem.alice) Mem.empty_world)).2).
    + reflexivity.
    + vm_compute. reflexivity.
Defined.

Lemma create_check_updates_existing_witness :
  ∃ h3,
    instance_dict h3 0 !! "name" = Some (VStr "Alicia")
    ∧ instance_dict h3 0 !! "_sa_instance_state" = Some (VObj 1 true)
    ∧ _create (Mem.options (Some Mem.session) (VStr "check") false true)
        Mem.Person [] Mem.alicia Mem.one_person
      = (Ok 0,
         {| st := {| heap := h3; db := [0] |};
            log := log Mem.second_looked_up ++ [EvMerge 0; EvFlush] |}).
Proof.
  destruct (create_check_updates_existing
              (Mem.options (Some Mem.session) (VStr "check") false true)
              Mem.session Mem.Person [] Mem.alicia (Mem.person_dict Mem.alicia)
              Mem.one_person 0 Mem.second_looked_up
              eq_refl eq_refl eq_refl eq_refl eq_refl second_lookup_finds_first)
    as (h3 & Hover & _ & Hrow & _ & Hrun).
  exists h3. split; [|split].
  - exact (Hover "name" (VStr "Alice") eq_refl eq_refl eq_refl eq_refl).
  - rewrite Hrow. vm_compute. reflexivity.
  - exact Hrun.
Defined.

(** A session whose merge hands back another instance: mode ['check'] with
    the update returns what [merge] gave, mode ['get'] the row found. *)
Example merge_result_is_returned_by_check_only :
  (_create (Mem.options (Some Mem.copying_session) (VStr "check") false true)
     Mem.Person [] Mem.alicia Mem.one_person).1 = Ok 2
  ∧ (_create (Mem.options (Some Mem.copying_session) (VStr "get") false false)
       Mem.Person [] Mem.alicia Mem.one_person).1 = Ok 0.
Proof. vm_compute. done. Qed.

(** * Further properties of the code *)

(** ** [find_existing] *)

Section LookupMore.

Context {D : Type}.
Implicit Types (session : Session D) (w : world D) (model_cls : ModelClass).



Lemma find_existing_columns_query_count session obj model_cls cols w :
  ∃ qs, log (find_existing_columns session obj model_cls cols w).2
        = (log w ++ qs)%list
        ∧ forallb is_query qs = true
        ∧ (List.length qs ≤ List.length cols)%nat.
Proof.
  revert w. induction cols as [|col rest IH]; intros w; simpl.
  - exists []. rewrite app_nil_r. split; [done|]. split; [done|]. simpl. lia.
  - destruct (truthy (getattr (heap (st w)) obj (col_key col))).
    + destruct (bool_cls (getattr_cls model_cls (col_key col))) as [[|]|x].
      * unfold bind, session_query. rewrite call_run.
        destruct (query_first session _ _ _ (st w)) as [[[e|]|x] s']; simpl.
        -- eexists [_]. split; [done|]. split; [done|]. simpl. lia.
        -- destruct (IH {| st := s'; log := log w ++
                            [EvQuery (mc_name model_cls)
                               (getattr_cls model_cls (col_key col))
                               (getattr (heap (st w)) obj (col_key col))] |})
             as (qs & Hlog & Hqs & Hlen).
           eexists (_ :: qs). rewrite Hlog. simpl. rewrite <- app_assoc.
           split; [done|]. split; [done|]. simpl. lia.
        -- eexists [_]. split; [done|]. split; [done|]. simpl. lia.
      * destruct (IH w) as (qs & Hlog & Hqs & Hlen).
        exists qs. split; [done|]. split; [done|]. lia.
      * exists []. simpl. rewrite app_nil_r. split; [done|]. split; [done|]. lia.
    + destruct (IH w) as (qs & Hlog & Hqs & Hlen).
      exists qs. split; [done|]. split; [done|]. lia.
Qed.

(** X2. [find_existing] calls nothing but queries (never merge, flush,
    commit or add, and never the constructor), and at most one query for
    each column of the unique constraints. *)
Theorem find_existing_queries_at_most_once_per_column session obj model_cls w :
  ∃ qs, log (find_existing session obj model_cls w).2 = (log w ++ qs)%list
        ∧ forallb is_query qs = true
        ∧ (List.length qs ≤ List.length (unique_columns model_cls))%nat.
Proof. rewrite find_existing_flat. apply find_existing_columns_query_count. Qed.



End LookupMore.



(** On a class whose attribute is a raw column the truth test raises, and
    no query is made. *)
Example find_existing_raw_column_raises :
  find_existing Mem.session 1 MemMore.Legacy Mem.second_built
  = (Raise (TypeError "Boolean value of this clause is not defined"),
     Mem.second_built).
Proof. vm_compute. reflexivity. Qed.

(** ** [update_existing] *)

Section MergeMore.

Implicit Types (h : gmap nat (gmap string pyval)) (d : gmap string pyval).

Lemma merged_field_self d k : merged_field d d k = d !! k.
Proof.
  unfold merged_field. destruct (d !! k) as [v|]; simpl; [|done].
  by case_match.
Qed.

Lemma merged_field_again d_obj d d1 k :
  d1 !! k = merged_field d_obj d k →
  merged_field d_obj d1 k = d1 !! k.
Proof.
  unfold merged_field. intros H1. destruct (d !! k) as [v|].
  - destruct (negb (is_internal k) && truthy (default VNone (d_obj !! k))
              && py_ne (default VNone (d_obj !! k)) v) eqn:Hcond; rewrite H1.
    + by case_match.
    + by rewrite Hcond.
  - by rewrite H1.
Qed.

Lemma update_existing_loop_dead h obj existing :
  h !! existing = None →
  update_existing_loop obj existing (map_to_list (attr_dict h existing)) h = h.
Proof.
  intros Hd. assert (attr_dict h existing = ∅) as ->.
  { unfold attr_dict, instance_dict. rewrite Hd. simpl. apply map_filter_empty. }
  by rewrite map_to_list_empty.
Qed.

(** A row the field merge has nothing to change in is left as it is. *)
Lemma update_existing_loop_fixed h obj existing :
  (∀ k, merged_field (instance_dict h obj) (instance_dict h existing) k
        = instance_dict h existing !! k) →
  update_existing_loop obj existing (map_to_list (attr_dict h existing)) h = h.
Proof.
  intros Hfix. destruct (h !! existing) as [d|] eqn:Hd;
    [|by apply update_existing_loop_dead].
  destruct (update_existing_loop_heap h obj existing
              (map_to_list (attr_dict h existing))) as (Halive & Hframe & Hrow);
    [done|].
  apply map_eq. intros a. destruct (decide (a = existing)) as [->|Hne];
    [|by apply Hframe].
  destruct Halive as [d' Hd']; [by eexists|]. rewrite Hd', Hd. f_equal.
  apply map_eq. intros k. specialize (Hrow k). rewrite Hfix in Hrow.
  unfold instance_dict in Hrow. by rewrite Hd', Hd in Hrow.
Qed.

Context {D : Type}.
Implicit Types (session : Session D) (w : world D).

Lemma set_heap_same w : set_heap (heap (st w)) w = w.
Proof. by destruct w as [[h db0] l]. Qed.

(** X4. [update_existing] touches the row and nothing else: it returns
    [existing], calls nobody (its [session] argument is not used, the log
    and the session's state are as before), and every other instance, the
    candidate included, holds what it held. *)
Theorem update_existing_touches_only_the_row session obj existing w :
  ∃ w', update_existing session obj existing w = (Ok existing, w')
        ∧ log w' = log w
        ∧ db (st w') = db (st w)
        ∧ ∀ a, a ≠ existing → heap (st w') !! a = heap (st w) !! a.
Proof.
  eexists. split; [reflexivity|]. split; [done|]. split; [done|].
  intros a Ha. simpl.
  by destruct (update_existing_heap (heap (st w)) obj existing) as [Hframe _];
    apply Hframe.
Qed.

(** X5. [update_existing] keeps the row's set of attributes: no key is
    added (an attribute only the candidate has is not copied) and none is
    removed; and what the row holds under a key that starts with [_sa]
    stays, whatever the candidate holds there. *)
Theorem update_existing_keeps_keys session obj existing w :
  let h := heap (st w) in
  let h' := heap (st (update_existing session obj existing w).2) in
  dom (instance_dict h' existing) = dom (instance_dict h existing)
  ∧ ∀ k, is_internal k = true →
         instance_dict h' existing !! k = instance_dict h existing !! k.
Proof.
  simpl. destruct (update_existing_heap (heap (st w)) obj existing) as [_ Hrow].
  split.
  - apply set_eq. intros k. rewrite !elem_of_dom, Hrow. unfold merged_field.
    destruct (instance_dict (heap (st w)) existing !! k) as [v|]; [|done].
    destruct (_ && _); split; intros _; by eexists.
  - intros k Hint. rewrite Hrow. unfold merged_field.
    destruct (instance_dict (heap (st w)) existing !! k) as [v|]; [|done].
    by rewrite Hint.
Qed.

(** X6. After [update_existing], at every attribute of the row that
    does not start with [_sa] and for which the candidate's value is
    truthy, the row holds the candidate's value itself, or it holds what it
    held and the candidate's value [==] it. (The first is not a case of
    the second: a NaN copied from the candidate is not [==] to itself.) *)
Theorem update_existing_agrees_with_candidate session obj existing w k v :
  instance_dict (heap (st w)) existing !! k = Some v →
  is_internal k = false →
  truthy (getattr (heap (st w)) obj k) = true →
  let new := getattr (heap (st w)) obj k in
  let after :=
    getattr (heap (st (update_existing session obj existing w).2)) existing k in
  after = new ∨ (after = v ∧ py_eq new v = true).
Proof.
  intros Hk Hint Htruthy. simpl.
  destruct (update_existing_heap (heap (st w)) obj existing) as [_ Hrow].
  unfold getattr at 1 3. rewrite Hrow. unfold merged_field. rewrite Hk, Hint.
  fold (getattr (heap (st w)) obj k). rewrite Htruthy. simpl.
  destruct (py_ne (getattr (heap (st w)) obj k) v) eqn:Hne; simpl.
  - by left.
  - right. split; [done|]. unfold py_ne in Hne. by apply negb_false_iff in Hne.
Qed.

(** X7. [update_existing] is idempotent: a second run with the same
    candidate and row changes nothing more. *)
Theorem update_existing_idempotent session obj existing w :
  (let* _ := update_existing session obj existing in
   update_existing session obj existing) w
  = update_existing session obj existing w.
Proof.
  unfold bind, update_existing. simpl.
  set (h := heap (st w)).
  set (h1 := update_existing_loop obj existing (map_to_list (attr_dict h existing)) h).
  assert (update_existing_loop obj existing (map_to_list (attr_dict h1 existing)) h1
          = h1) as Hsame; [|by rewrite Hsame].
  apply update_existing_loop_fixed. intros k.
  destruct (update_existing_heap h obj existing) as [Hframe Hrow]. fold h1 in Hframe, Hrow.
  destruct (decide (obj = existing)) as [->|Hne].
  - apply merged_field_self.
  - assert (instance_dict h1 obj = instance_dict h obj) as ->.
    { unfold instance_dict. by rewrite Hframe. }
    by eapply merged_field_again.
Qed.

(** X8. Merging a row into itself changes nothing. *)
Theorem update_existing_self session existing w :
  update_existing session existing existing w = (Ok existing, w).
Proof.
  unfold update_existing. rewrite update_existing_loop_fixed.
  - by rewrite set_heap_same.
  - intros k. apply merged_field_self.
Qed.

End MergeMore.

Lemma update_existing_agrees_with_candidate_witness :
  getattr (heap (st (update_existing Mem.session 1 0 Mem.second_built).2)) 0 "name"
  = getattr (heap (st Mem.second_built)) 1 "name"
  ∨ (getattr (heap (st (update_existing Mem.session 1 0 Mem.second_built).2)) 0
       "name" = VStr "Alice"
     ∧ py_eq (getattr (heap (st Mem.second_built)) 1 "name") (VStr "Alice") = true).
Proof.
  apply (update_existing_agrees_with_candidate Mem.session 1 0 Mem.second_built
           "name" (VStr "Alice")).
  - vm_compute. reflexivity.
  - reflexivity.
  - vm_compute. reflexivity.
Defined.

(** A NaN of the candidate is copied to the row, and is not [==] to it. *)
Example update_existing_copies_nan :
  getattr (update_existing_loop 1 0
             (map_to_list (attr_dict MemMore.nan_heap 0)) MemMore.nan_heap) 0 "score"
  = VNaN
  ∧ py_eq (getattr MemMore.nan_heap 1 "score")
          (getattr (update_existing_loop 1 0
                      (map_to_list (attr_dict MemMore.nan_heap 0)) MemMore.nan_heap)
                   0 "score")
    = false.
Proof. vm_compute. done. Qed.

Lemma update_existing_any_order_witness :
  update_existing_loop 1 0
    (reverse (map_to_list (attr_dict MemMore.two_people 0))) MemMore.two_people
  = update_existing_loop 1 0
      (map_to_list (attr_dict MemMore.two_people 0)) MemMore.two_people.
Proof.
  apply (update_existing_any_order MemMore.two_people 1 0
           (reverse (map_to_list (attr_dict MemMore.two_people 0)))).
  apply reverse_Permutation.
Defined.

Example reversed_items_differ :
  reverse (map_to_list (attr_dict MemMore.two_people 0))
  ≠ map_to_list (attr_dict MemMore.two_people 0).
Proof. vm_compute. discriminate. Qed.

(** ** [_create], the other branches *)

Section CreateMore.

Context {D : Type}.
Implicit Types (meta : Options D) (session : Session D) (w : world D).
Implicit Types (model_class : ModelClass) (args : list pyval).
Implicit Types (kwargs : list (string * pyval)).

(** X9. A constructor that raises ends [_create] at once, whatever the
    options: its exception is the one the caller gets, and the session,
    configured or not, has not been called. *)
Theorem create_constructor_failure meta model_class args kwargs e w :
  mc_init model_class args kwargs = Raise e →
  _create meta model_class args kwargs w
  = (Raise e, record_event (EvConstruct (mc_name model_class) args kwargs) w).
Proof.
  intros Hinit. unfold _create, bind.
  by rewrite (construct_raise _ _ _ e).
Qed.

(** X10. In mode ['merge'] no lookup is made: the new instance is merged,
    then the session committed, and what [merge] handed back is returned;
    when [merge] raises, [commit] is not called. *)
Theorem create_merge_then_commit meta session model_class args kwargs d w :
  sqlalchemy_session meta = Some session →
  truthy (force_flush meta) = false →
  sqlalchemy_session_persistence meta = VStr "merge" →
  mc_init model_class args kwargs = Ok d →
  let obj := new_ref w in
  let w1 := constructed model_class args kwargs d w in
  let merged := merge_op session obj (st w1) in
  _create meta model_class args kwargs w
  = match merged.1 with
    | Raise x =>
        (Raise x,
         {| st := merged.2;
            log := log w ++ [EvConstruct (mc_name model_class) args kwargs;
                             EvMerge obj] |})
    | Ok row =>
        (returning (commit_op session merged.2).1 row,
         {| st := (commit_op session merged.2).2;
            log := log w ++ [EvConstruct (mc_name model_class) args kwargs;
                             EvMerge obj; EvCommit] |})
    end.
Proof.
  intros Hs Hforce Hmode Hinit obj w1 merged. subst obj w1 merged.
  unfold _create, bind. rewrite Hs, Hforce, Hmode, (construct_ok _ _ _ d) by done.
  simpl. rewrite session_merge_run. simpl.
  destruct (merge_op session _ _) as [[row|x] s2]; simpl.
  - rewrite session_commit_run. simpl. rewrite <- !app_assoc. simpl.
    by destruct (commit_op session s2) as [[[]|x] s3].
  - by rewrite <- app_assoc.
Qed.

(** X11. In mode ['check'], when the lookup finds nothing, the new
    instance is merged, the session flushed, and what [merge] handed back
    is returned, the update-existing flag playing no part. *)
Theorem create_check_not_found meta session model_class args kwargs d w w2 :
  sqlalchemy_session meta = Some session →
  truthy (force_flush meta) = false →
  sqlalchemy_session_persistence meta = VStr "check" →
  mc_init model_class args kwargs = Ok d →
  find_existing session (new_ref w) model_class
    (constructed model_class args kwargs d w) = (Ok None, w2) →
  let obj := new_ref w in
  let merged := merge_op session obj (st w2) in
  _create meta model_class args kwargs w
  = match merged.1 with
    | Raise x =>
        (Raise x, {| st := merged.2; log := log w2 ++ [EvMerge obj] |})
    | Ok row =>
        (returning (flush_op session merged.2).1 row,
         {| st := (flush_op session merged.2).2;
            log := log w2 ++ [EvMerge obj; EvFlush] |})
    end.
Proof.
  intros Hs Hforce Hmode Hinit Hfind obj merged. subst obj merged.
  unfold _create, bind.
  rewrite Hs, Hforce, Hmode, (construct_ok _ _ _ d), check_membership by done.
  simpl. rewrite Hfind, session_merge_run.
  destruct (merge_op session _ _) as [[row|x] s3]; simpl; [|done].
  rewrite session_flush_run. simpl. rewrite <- app_assoc. simpl.
  by destruct (flush_op session s3) as [[[]|x] s4].
Qed.

(** X12. When the mode is ['flush'], configured or forced by the flag,
    the session is flushed and nothing else: the new instance is not handed
    to the session by [_create] (no add, no merge), and it is the value
    returned. *)
Theorem create_flush_only meta session model_class args kwargs d w :
  sqlalchemy_session meta = Some session →
  truthy (force_flush meta) = true
  ∨ sqlalchemy_session_persistence meta = VStr "flush" →
  mc_init model_class args kwargs = Ok d →
  let obj := new_ref w in
  let w1 := constructed model_class args kwargs d w in
  _create meta model_class args kwargs w
  = (returning (flush_op session (st w1)).1 obj,
     {| st := (flush_op session (st w1)).2;
        log := log w ++ [EvConstruct (mc_name model_class) args kwargs; EvFlush] |}).
Proof.
  intros Hs Hflush Hinit obj w1. subst obj w1.
  assert ((if truthy (force_flush meta) then SESSION_PERSISTENCE_FLUSH
           else sqlalchemy_session_persistence meta) = VStr "flush") as Hmode.
  { destruct Hflush as [->| ->]; [done|]. by destruct (truthy (force_flush meta)). }
  unfold _create, bind. rewrite Hs, Hmode, (construct_ok _ _ _ d) by done.
  simpl. rewrite session_flush_run. simpl. rewrite <- app_assoc. simpl.
  by destruct (flush_op session _) as [[[]|x] s2].
Qed.

(** X13. In mode ['commit'] the session is committed and nothing else:
    the new instance is not handed to the session by [_create], and it is
    the value returned. *)
Theorem create_commit_only meta session model_class args kwargs d w :
  sqlalchemy_session meta = Some session →
  truthy (force_flush meta) = false →
  sqlalchemy_session_persistence meta = VStr "commit" →
  mc_init model_class args kwargs = Ok d →
  let obj := new_ref w in
  let w1 := constructed model_class args kwargs d w in
  _create meta model_class args kwargs w
  = (returning (commit_op session (st w1)).1 obj,
     {| st := (commit_op session (st w1)).2;
        log := log w ++ [EvConstruct (mc_name model_class) args kwargs; EvCommit] |}).
Proof.
  intros Hs Hforce Hmode Hinit obj w1. subst obj w1.
  unfold _create, bind. rewrite Hs, Hforce, Hmode, (construct_ok _ _ _ d) by done.
  simpl. rewrite session_commit_run. simpl. rewrite <- app_assoc. simpl.
  by destruct (commit_op session _) as [[[]|x] s2].
Qed.

(** X14. [_create] does not validate the mode: with any value that is
    none of the six mode strings (None, a string the checker would refuse,
    a number) and the flag off, it builds the instance, returns it, and
    leaves the session alone. *)
Theorem create_unrecognised_mode meta session model_class args kwargs d w :
  sqlalchemy_session meta = Some session →
  truthy (force_flush meta) = false →
  sqlalchemy_session_persistence meta
    ∉ [VStr "commit"; VStr "flush"; VStr "merge"; VStr "check"; VStr "get"; VStr "add"] →
  mc_init model_class args kwargs = Ok d →
  _create meta model_class args kwargs w
  = (Ok (new_ref w), constructed model_class args kwargs d w).
Proof.
  intros Hs Hforce Hmode Hinit.
  unfold _create, bind.
  rewrite Hs, Hforce, (construct_ok _ _ _ d), check_membership by done.
  unfold SESSION_PERSISTENCE_MERGE, SESSION_PERSISTENCE_GET_OR_ADD,
    SESSION_PERSISTENCE_FLUSH, SESSION_PERSISTENCE_COMMIT, SESSION_PERSISTENCE_ADD.
  rewrite !py_eq_str_false; [done|..];
    intros Heq; apply Hmode; rewrite Heq; set_solver.
Qed.

(** X15. The flush-forcing flag and its checker agree: for a flag value
    the checker lets pass in silence, [_create] goes by the configured
    mode; for a flag value it warns about, [_create] goes by ['flush']. *)
Theorem force_flush_warning_matches_override
    (name : string) meta model_class args kwargs w :
  match _check_force_flush name (force_flush meta) with
  | [] =>
      _create meta model_class args kwargs w
      = _create (with_persistence (sqlalchemy_session_persistence meta)
                   (VBool false) meta) model_class args kwargs w
  | _ :: _ =>
      _create meta model_class args kwargs w
      = _create (with_persistence (VStr "flush") (VBool false) meta)
          model_class args kwargs w
  end.
Proof.
  unfold _check_force_flush, _create, with_persistence. simpl.
  by destruct (truthy (force_flush meta)).
Qed.

End CreateMore.

(** ** Which calls a mode can lead to *)

Section Calls.

Context {D : Type}.
Implicit Types (meta : Options D) (session : Session D) (w : world D).
Implicit Types (P : event → bool).

Lemma logs_only_ret {A} P (a : A) : logs_only (D := D) P (ret a).
Proof. intros w r w' [= <- <-]. exists []. by rewrite app_nil_r. Qed.

Lemma logs_only_raise {A} P (e : exn) : logs_only (D := D) (A := A) P (raise e).
Proof. intros w r w' [= <- <-]. exists []. by rewrite app_nil_r. Qed.

Lemma logs_only_bind {A B} P (m : M D A) (k : A → M D B) :
  logs_only P m → (∀ a, logs_only P (k a)) → logs_only P (bind m k).
Proof.
  intros Hm Hk w r w'. unfold bind.
  destruct (m w) as [[a|e] w1] eqn:Hrun.
  - intros Hrest. destruct (Hm _ _ _ Hrun) as (evs1 & Hlog1 & Hall1).
    destruct (Hk a _ _ _ Hrest) as (evs2 & Hlog2 & Hall2).
    exists (evs1 ++ evs2)%list. rewrite Hlog2, Hlog1, <- app_assoc.
    split; [done|]. rewrite forallb_app. by rewrite Hall1, Hall2.
  - intros [= <- <-]. by apply (Hm _ _ _ Hrun).
Qed.

Lemma logs_only_call {A} P (ev : event) (f : store D → result A * store D) :
  P ev = true → logs_only P (call ev f).
Proof.
  intros Hev w r w'. rewrite call_run. intros [= <- <-].
  exists [ev]. simpl. by rewrite Hev.
Qed.

Lemma logs_only_find_existing P session obj model_cls :
  (∀ ev, is_query ev = true → P ev = true) →
  logs_only P (find_existing session obj model_cls).
Proof.
  intros Hq w r w' Hrun. apply find_existing_log in Hrun as (qs & Hlog & Hqs).
  exists qs. split; [done|].
  rewrite forallb_forall in Hqs |- *. intros ev Hin. apply Hq. by apply Hqs.
Qed.

Lemma logs_only_update_existing P session obj existing :
  logs_only P (update_existing session obj existing).
Proof. intros w r w' [= <- <-]. exists []. simpl. by rewrite app_nil_r. Qed.

Lemma logs_only_run {A} P (m : M D A) w :
  logs_only P m →
  ∃ evs, log (m w).2 = (log w ++ evs)%list ∧ forallb P evs = true.
Proof. intros Hm. destruct (m w) as [r w'] eqn:Hrun. by apply (Hm _ _ _ Hrun). Qed.

(** X16. One call of [_create] logs the call of the constructor, once
    and first, and after it only calls to the session that the mode in
    effect can lead to: a query only under ['check'] and ['get'], a merge
    only under ['merge'], ['check'] and ['get'], a flush only under
    ['check'] and ['flush'], a commit only under ['merge'], ['get'] and
    ['commit'], an add only under ['get'] and ['add']. *)
Theorem create_calls_by_mode meta model_class args kwargs w :
  ∃ evs,
    log (_create meta model_class args kwargs w).2
    = (log w ++ EvConstruct (mc_name model_class) args kwargs :: evs)%list
    ∧ forallb (permitted (effective_persistence meta)) evs = true.
Proof.
  unfold _create, effective_persistence.
  set (sp := if truthy (force_flush meta) then SESSION_PERSISTENCE_FLUSH
             else sqlalchemy_session_persistence meta).
  unfold bind at 1.
  destruct (mc_init model_class args kwargs) as [d|e] eqn:Hinit.
  2: { rewrite (construct_raise _ _ _ e) by done. exists []. by split. }
  rewrite (construct_ok _ _ _ d) by done.
  match goal with
  | |- ∃ evs, log (?k ?w1).2 = _ ∧ _ =>
      assert (logs_only (permitted sp) k) as Hk
  end.
  { destruct (sqlalchemy_session meta) as [session|]; [|apply logs_only_raise].
    destruct (py_eq sp SESSION_PERSISTENCE_MERGE) eqn:Hmerge.
    { repeat first [ apply logs_only_ret
                   | apply logs_only_bind; [|intros ?]
                   | apply logs_only_call; simpl; by rewrite Hmerge ]. }
    rewrite check_membership.
    destruct (py_eq sp (VStr "check")) eqn:Hcheck.
    { apply logs_only_bind.
      - apply logs_only_find_existing. intros [] Hq; try done.
        simpl. unfold SESSION_PERSISTENCE_CHECK_AND_MERGE. by rewrite Hcheck.
      - intros [existing|]; [destruct (truthy (sqlalchemy_update_existing meta))|];
          repeat first [ apply logs_only_ret
                       | apply logs_only_update_existing
                       | apply logs_only_bind; [|intros ?]
                       | apply logs_only_call; simpl;
                         unfold SESSION_PERSISTENCE_CHECK_AND_MERGE;
                         by rewrite Hcheck, ?orb_true_r ]. }
    destruct (py_eq sp SESSION_PERSISTENCE_GET_OR_ADD) eqn:Hget.
    { apply logs_only_bind.
      - apply logs_only_find_existing. intros [] Hq; try done.
        simpl. by rewrite Hget, orb_true_r.
      - intros [existing|];
          repeat first [ apply logs_only_ret
                       | apply logs_only_bind; [|intros ?]
                       | apply logs_only_call; simpl;
                         by rewrite Hget, ?orb_true_r ]. }
    destruct (py_eq sp SESSION_PERSISTENCE_FLUSH) eqn:Hflush.
    { repeat first [ apply logs_only_ret
                   | apply logs_only_bind; [|intros ?]
                   | apply logs_only_call; simpl; by rewrite Hflush, ?orb_true_r ]. }
    destruct (py_eq sp SESSION_PERSISTENCE_COMMIT) eqn:Hcommit.
    { repeat first [ apply logs_only_ret
                   | apply logs_only_bind; [|intros ?]
                   | apply logs_only_call; simpl; by rewrite Hcommit, ?orb_true_r ]. }
    destruct (py_eq sp SESSION_PERSISTENCE_ADD) eqn:Hadd.
    { repeat first [ apply logs_only_ret
                   | apply logs_only_bind; [|intros ?]
                   | apply logs_only_call; simpl; by rewrite Hadd, ?orb_true_r ]. }
    apply logs_only_ret. }
  match goal with
  | |- ∃ evs, log (?k ?w1).2 = _ ∧ _ =>
      destruct (logs_only_run _ k w1 Hk) as (evs & Hlog & Hall)
  end.
  exists evs. rewrite Hlog, constructed_log, <- app_assoc. by split.
Qed.

End Calls.

(** ** The option defaults *)

(** X17. The options [SQLAlchemyOptions] declares come after those of the
    base class, which are kept as they are; they are the four options
    [_create] reads, all inherited, and the default value of each passes
    the option's own checker with no error and no warning. *)
Theorem default_options_pass_their_checkers (base : list OptionDefault) :
  take (List.length base) (_build_default_options base) = base
  ∧ map od_name (drop (List.length base) (_build_default_options base))
    = [ "sqlalchemy_session"; "sqlalchemy_session_persistence";
        "force_flush"; "sqlalchemy_update_existing" ]
  ∧ Forall (λ o, od_inherit o = true
                 ∧ ∀ meta, run_checker o meta (od_value o) = (Ok tt, []))
           (drop (List.length base) (_build_default_options base)).
Proof.
  unfold _build_default_options.
  rewrite take_app_length, drop_app_length.
  split; [done|]. split; [done|].
  repeat constructor.
Qed.

(** ** The further theorems at concrete inputs *)

Lemma create_constructor_failure_witness :
  _create (Mem.options (Some Mem.session) (VStr "add") false false)
    Mem.Person [VInt 1] Mem.alice Mem.empty_world
  = (Raise (TypeError "__init__() takes 1 positional argument"),
     record_event (EvConstruct "Person" [VInt 1] Mem.alice) Mem.empty_world).
Proof.
  apply (create_constructor_failure
           (Mem.options (Some Mem.session) (VStr "add") false false)
           Mem.Person [VInt 1] Mem.alice).
  reflexivity.
Defined.

Lemma create_merge_then_commit_witness :
  (_create (Mem.options (Some Mem.session) (VStr "merge") false false)
     Mem.Person [] Mem.alice Mem.empty_world).1 = Ok 0
  ∧ log (_create (Mem.options (Some Mem.session) (VStr "merge") false false)
           Mem.Person [] Mem.alice Mem.empty_world).2
    = [EvConstruct "Person" [] Mem.alice; EvMerge 0; EvCommit].
Proof.
  rewrite (create_merge_then_commit
             (Mem.options (Some Mem.session) (VStr "merge") false false)
             Mem.session Mem.Person [] Mem.alice (Mem.person_dict Mem.alice)
             Mem.empty_world eq_refl eq_refl eq_refl eq_refl).
  split; reflexivity.
Defined.

Lemma create_check_not_found_witness :
  (_create (Mem.options (Some Mem.session) (VStr "check") false true)
     Mem.Person [] Mem.alice Mem.empty_world).1 = Ok 0
  ∧ log (_create (Mem.options (Some Mem.session) (VStr "check") false true)
           Mem.Person [] Mem.alice Mem.empty_world).2
    = [ EvConstruct "Person" [] Mem.alice;
        EvQuery "Person" (CMapped "Person" "email") (VStr "a@x.com");
        EvMerge 0; EvFlush ].
Proof.
  rewrite (create_check_not_found
             (Mem.options (Some Mem.session) (VStr "check") false true)
             Mem.session Mem.Person [] Mem.alice (Mem.person_dict Mem.alice)
             Mem.empty_world
             (find_existing Mem.session 0 Mem.Person
                (constructed Mem.Person [] Mem.alice (Mem.person_dict Mem.alice)
                   Mem.empty_world)).2
             eq_refl eq_refl eq_refl eq_refl).
  - split; vm_compute; reflexivity.
  - vm_compute. reflexivity.
Defined.

Lemma create_flush_only_witness :
  (_create (Mem.options (Some Mem.session) (VStr "commit") true false)
     Mem.Person [] Mem.alice Mem.empty_world).1 = Ok 0
  ∧ db (st (_create (Mem.options (Some Mem.session) (VStr "commit") true false)
              Mem.Person [] Mem.alice Mem.empty_world).2) = [].
Proof.
  rewrite (create_flush_only
             (Mem.options (Some Mem.session) (VStr "commit") true false)
             Mem.session Mem.Person [] Mem.alice (Mem.person_dict Mem.alice)
             Mem.empty_world eq_refl (or_introl eq_refl) eq_refl).
  split; reflexivity.
Defined.

Lemma create_commit_only_witness :
  (_create (Mem.options (Some Mem.session) (VStr "commit") false false)
     Mem.Person [] Mem.alice Mem.empty_world).1 = Ok 0
  ∧ db (st (_create (Mem.options (Some Mem.session) (VStr "commit") false false)
              Mem.Person [] Mem.alice Mem.empty_world).2) = [].
Proof.
  rewrite (create_commit_only
             (Mem.options (Some Mem.session) (VStr "commit") false false)
             Mem.session Mem.Person [] Mem.alice (Mem.person_dict Mem.alice)
             Mem.empty_world eq_refl eq_refl eq_refl eq_refl).
  split; reflexivity.
Defined.

Lemma create_unrecognised_mode_witness :
  _create (Mem.options (Some Mem.session) (VStr "save") false false)
    Mem.Person [] Mem.alice Mem.empty_world
  = (Ok 0,
     constructed Mem.Person [] Mem.alice (Mem.person_dict Mem.alice)
       Mem.empty_world).
Proof.
  apply (create_unrecognised_mode
           (Mem.options (Some Mem.session) (VStr "save") false false)
           Mem.session Mem.Person [] Mem.alice (Mem.person_dict Mem.alice)
           Mem.empty_world).
  - reflexivity.
  - reflexivity.
  - apply (bool_decide_eq_false_1 _). reflexivity.
  - reflexivity.
Defined.
